(** * Job tracker: the Dashboard and the JobForm

    A shallow embedding of [src/components/Dashboard.tsx] and of the
    [JobForm] component, and the properties of the specification proved
    (or refuted) on it.

    Modelling choices.
    - A JavaScript string is held as the bytes of its UTF-8 encoding.
      [toLowerCase] decodes them to code points, lower-cases these as
      the built-in does (the mapping of single code points of Unicode
      14, U+0130, and the final sigma) and encodes the result; on an
      ASCII string this maps [A]..[Z] to [a]..[z] and nothing else.
    - A JavaScript object is a finite map from property names to values
      ([gmap string value]); object spread is map union, where the later
      property wins; reading an absent property gives [Undefined].
    - The TypeScript types are erased at run time, so a [Job] is such an
      object; the typing assumption is the predicate [typedJob].
    - [crypto.randomUUID()], [new Date().toISOString()] and the outcome of
      every call into the database and authentication SDK are read from an
      environment indexed by the number of readings made so far.
    - [doc(db, 'jobs', id)] makes a reference or throws as the SDK does,
      by the segments of [id] ([docPath]).
    - The application as a whole is a function [act] from an action (a
      change of the signed-in user, a snapshot, a click, a change of the
      form, a submission) and a [System] to the next [System]; the
      source guards none of them by the user being signed in. *)

From Stdlib Require Import Ascii String List Arith NArith Lia Bool.
From stdpp Require Import base option list gmap strings fin_maps.

Local Open Scope string_scope.

(** ** JavaScript values and objects *)

Inductive value : Type :=
| Str (s : string)
| Undefined.

#[global] Instance value_eq_dec : EqDecision value.
Proof. solve_decision. Defined.

Abbreviation obj := (gmap string value).

(** [o.k]: the property [k] of [o], [undefined] when absent. *)
Definition get (k : string) (o : obj) : value :=
  match o !! k with
  | Some v => v
  | None => Undefined
  end.

(** [o?.k] on an object that may itself be [undefined]. *)
Definition optGet (k : string) (o : option obj) : value :=
  match o with
  | Some j => get k j
  | None => Undefined
  end.

(** JavaScript truthiness of the values of the model. *)
Definition truthy (v : value) : bool :=
  match v with
  | Str "" => false
  | Str _ => true
  | Undefined => false
  end.

(** [{ ...a, ...b }]: the properties of [b] win. *)
Definition spread (a b : obj) : obj := b ∪ a.

(** ** Strings: ASCII letters *)

Fixpoint isAscii (s : string) : bool :=
  match s with
  | EmptyString => true
  | String b s' => (N_of_ascii b <? 128)%N && isAscii s'
  end.

Definition isUpper (c : ascii) : bool :=
  ((65 <=? nat_of_ascii c) && (nat_of_ascii c <=? 90))%nat.

Definition lowerChar (c : ascii) : ascii :=
  if isUpper c then ascii_of_nat (nat_of_ascii c + 32)%nat else c.

(** Lower-casing byte by byte: [A]..[Z] to [a]..[z]. *)
Fixpoint asciiLowerCase (s : string) : string :=
  match s with
  | EmptyString => EmptyString
  | String c s' => String (lowerChar c) (asciiLowerCase s')
  end.

(** ** Strings: UTF-8 *)

(** What a run of bytes decodes to: a code point, or a byte that is part
    of no well-formed sequence. *)
Inductive scalar : Type :=
| CodePoint (c : N)
| Byte (b : ascii).

Definition isContinuation (b : ascii) : bool :=
  ((128 <=? N_of_ascii b) && (N_of_ascii b <=? 191))%N.

Definition bits (b : ascii) : N := (N_of_ascii b - 128)%N.

Definition twoBytes (n0 : N) (b1 : ascii) : bool :=
  ((194 <=? n0) && (n0 <=? 223))%N && isContinuation b1.

Definition codeOfTwo (n0 : N) (b1 : ascii) : N :=
  ((n0 - 192) * 64 + bits b1)%N.

Definition codeOfThree (n0 : N) (b1 b2 : ascii) : N :=
  ((n0 - 224) * 4096 + bits b1 * 64 + bits b2)%N.

Definition threeBytes (n0 : N) (b1 b2 : ascii) : bool :=
  ((224 <=? n0) && (n0 <=? 239))%N && isContinuation b1 && isContinuation b2 &&
  (2048 <=? codeOfThree n0 b1 b2)%N &&
  negb ((55296 <=? codeOfThree n0 b1 b2) && (codeOfThree n0 b1 b2 <=? 57343))%N.

Definition codeOfFour (n0 : N) (b1 b2 b3 : ascii) : N :=
  ((n0 - 240) * 262144 + bits b1 * 4096 + bits b2 * 64 + bits b3)%N.

Definition fourBytes (n0 : N) (b1 b2 b3 : ascii) : bool :=
  ((240 <=? n0) && (n0 <=? 244))%N &&
  isContinuation b1 && isContinuation b2 && isContinuation b3 &&
  ((65536 <=? codeOfFour n0 b1 b2 b3) && (codeOfFour n0 b1 b2 b3 <=? 1114111))%N.

Fixpoint utf8Decode (s : string) : list scalar :=
  match s with
  | EmptyString => []
  | String b0 s1 =>
      let n0 := N_of_ascii b0 in
      if (n0 <? 128)%N then CodePoint n0 :: utf8Decode s1 else
      match s1 with
      | String b1 s2 =>
          if twoBytes n0 b1 then CodePoint (codeOfTwo n0 b1) :: utf8Decode s2 else
          match s2 with
          | String b2 s3 =>
              if threeBytes n0 b1 b2
              then CodePoint (codeOfThree n0 b1 b2) :: utf8Decode s3 else
              match s3 with
              | String b3 s4 =>
                  if fourBytes n0 b1 b2 b3
                  then CodePoint (codeOfFour n0 b1 b2 b3) :: utf8Decode s4
                  else Byte b0 :: utf8Decode s1
              | EmptyString => Byte b0 :: utf8Decode s1
              end
          | EmptyString => Byte b0 :: utf8Decode s1
          end
      | EmptyString => [Byte b0]
      end
  end.

Definition byteOf (n : N) : string := String (ascii_of_N n) EmptyString.

Definition utf8EncodeOne (u : scalar) : string :=
  match u with
  | Byte b => String b EmptyString
  | CodePoint c =>
      if (c <? 128)%N then byteOf c
      else if (c <? 2048)%N then
        String.append (byteOf (192 + c / 64)) (byteOf (128 + c mod 64))%N
      else if (c <? 65536)%N then
        String.append (byteOf (224 + c / 4096))
          (String.append (byteOf (128 + (c / 64) mod 64))
                         (byteOf (128 + c mod 64)))%N
      else
        String.append (byteOf (240 + c / 262144))
          (String.append (byteOf (128 + (c / 4096) mod 64))
             (String.append (byteOf (128 + (c / 64) mod 64))
                            (byteOf (128 + c mod 64))))%N
  end.

Fixpoint utf8Encode (us : list scalar) : string :=
  match us with
  | [] => EmptyString
  | u :: rest => String.append (utf8EncodeOne u) (utf8Encode rest)
  end.

(** ** Strings: [toLowerCase]

    [String.prototype.toLowerCase] is the lower-casing of the Unicode
    standard that does not depend on the language: every code point is
    replaced by its lower-case mapping, U+0130 by U+0069 U+0307, and a
    capital sigma by the final sigma when it ends a word (it follows a
    cased letter and no cased letter follows it, case-ignorable code
    points between them apart). The tables are those of Unicode 14. *)

(** The lower-case mapping of single code points: [(first, last, step, image
    of first)]; the code points [first], [first + step], ... up to [last] map
    to [image], [image + step], ... *)
Definition lowerRuns : list (N * N * N * N) :=
  [ (65, 90, 1, 97); (192, 214, 1, 224); (216, 222, 1, 248); (256, 302, 2, 257);
    (306, 310, 2, 307); (313, 327, 2, 314); (330, 374, 2, 331); (376, 376, 1,
    255); (377, 381, 2, 378); (385, 385, 1, 595); (386, 388, 2, 387); (390, 390,
    1, 596); (391, 391, 1, 392); (393, 394, 1, 598); (395, 395, 1, 396); (398,
    398, 1, 477); (399, 399, 1, 601); (400, 400, 1, 603); (401, 401, 1, 402);
    (403, 403, 1, 608); (404, 404, 1, 611); (406, 406, 1, 617); (407, 407, 1,
    616); (408, 408, 1, 409); (412, 412, 1, 623); (413, 413, 1, 626); (415, 415,
    1, 629); (416, 420, 2, 417); (422, 422, 1, 640); (423, 423, 1, 424); (425,
    425, 1, 643); (428, 428, 1, 429); (430, 430, 1, 648); (431, 431, 1, 432);
    (433, 434, 1, 650); (435, 437, 2, 436); (439, 439, 1, 658); (440, 440, 1,
    441); (444, 444, 1, 445); (452, 452, 1, 454); (453, 453, 1, 454); (455, 455,
    1, 457); (456, 456, 1, 457); (458, 458, 1, 460); (459, 475, 2, 460); (478,
    494, 2, 479); (497, 497, 1, 499); (498, 500, 2, 499); (502, 502, 1, 405);
    (503, 503, 1, 447); (504, 542, 2, 505); (544, 544, 1, 414); (546, 562, 2,
    547); (570, 570, 1, 11365); (571, 571, 1, 572); (573, 573, 1, 410); (574,
    574, 1, 11366); (577, 577, 1, 578); (579, 579, 1, 384); (580, 580, 1, 649);
    (581, 581, 1, 652); (582, 590, 2, 583); (880, 882, 2, 881); (886, 886, 1,
    887); (895, 895, 1, 1011); (902, 902, 1, 940); (904, 906, 1, 941); (908,
    908, 1, 972); (910, 911, 1, 973); (913, 929, 1, 945); (932, 939, 1, 964);
    (975, 975, 1, 983); (984, 1006, 2, 985); (1012, 1012, 1, 952); (1015, 1015,
    1, 1016); (1017, 1017, 1, 1010); (1018, 1018, 1, 1019); (1021, 1023, 1,
    891); (1024, 1039, 1, 1104); (1040, 1071, 1, 1072); (1120, 1152, 2, 1121);
    (1162, 1214, 2, 1163); (1216, 1216, 1, 1231); (1217, 1229, 2, 1218); (1232,
    1326, 2, 1233); (1329, 1366, 1, 1377); (4256, 4293, 1, 11520); (4295, 4295,
    1, 11559); (4301, 4301, 1, 11565); (5024, 5103, 1, 43888); (5104, 5109, 1,
    5112); (7312, 7354, 1, 4304); (7357, 7359, 1, 4349); (7680, 7828, 2, 7681);
    (7838, 7838, 1, 223); (7840, 7934, 2, 7841); (7944, 7951, 1, 7936); (7960,
    7965, 1, 7952); (7976, 7983, 1, 7968); (7992, 7999, 1, 7984); (8008, 8013,
    1, 8000); (8025, 8031, 2, 8017); (8040, 8047, 1, 8032); (8072, 8079, 1,
    8064); (8088, 8095, 1, 8080); (8104, 8111, 1, 8096); (8120, 8121, 1, 8112);
    (8122, 8123, 1, 8048); (8124, 8124, 1, 8115); (8136, 8139, 1, 8050); (8140,
    8140, 1, 8131); (8152, 8153, 1, 8144); (8154, 8155, 1, 8054); (8168, 8169,
    1, 8160); (8170, 8171, 1, 8058); (8172, 8172, 1, 8165); (8184, 8185, 1,
    8056); (8186, 8187, 1, 8060); (8188, 8188, 1, 8179); (8486, 8486, 1, 969);
    (8490, 8490, 1, 107); (8491, 8491, 1, 229); (8498, 8498, 1, 8526); (8544,
    8559, 1, 8560); (8579, 8579, 1, 8580); (9398, 9423, 1, 9424); (11264, 11311,
    1, 11312); (11360, 11360, 1, 11361); (11362, 11362, 1, 619); (11363, 11363,
    1, 7549); (11364, 11364, 1, 637); (11367, 11371, 2, 11368); (11373, 11373,
    1, 593); (11374, 11374, 1, 625); (11375, 11375, 1, 592); (11376, 11376, 1,
    594); (11378, 11378, 1, 11379); (11381, 11381, 1, 11382); (11390, 11391, 1,
    575); (11392, 11490, 2, 11393); (11499, 11501, 2, 11500); (11506, 11506, 1,
    11507); (42560, 42604, 2, 42561); (42624, 42650, 2, 42625); (42786, 42798,
    2, 42787); (42802, 42862, 2, 42803); (42873, 42875, 2, 42874); (42877,
    42877, 1, 7545); (42878, 42886, 2, 42879); (42891, 42891, 1, 42892); (42893,
    42893, 1, 613); (42896, 42898, 2, 42897); (42902, 42920, 2, 42903); (42922,
    42922, 1, 614); (42923, 42923, 1, 604); (42924, 42924, 1, 609); (42925,
    42925, 1, 620); (42926, 42926, 1, 618); (42928, 42928, 1, 670); (42929,
    42929, 1, 647); (42930, 42930, 1, 669); (42931, 42931, 1, 43859); (42932,
    42946, 2, 42933); (42948, 42948, 1, 42900); (42949, 42949, 1, 642); (42950,
    42950, 1, 7566); (42951, 42953, 2, 42952); (42960, 42960, 1, 42961); (42966,
    42968, 2, 42967); (42997, 42997, 1, 42998); (65313, 65338, 1, 65345);
    (66560, 66599, 1, 66600); (66736, 66771, 1, 66776); (66928, 66938, 1,
    66967); (66940, 66954, 1, 66979); (66956, 66962, 1, 66995); (66964, 66965,
    1, 67003); (68736, 68786, 1, 68800); (71840, 71871, 1, 71872); (93760,
    93791, 1, 93792); (125184, 125217, 1, 125218) ]%N.

(** The code points that are cased and not case-ignorable, as ranges. *)
Definition casedRanges : list (N * N) :=
  [ (65, 90); (97, 122); (170, 170); (181, 181); (186, 186); (192, 214); (216,
    246); (248, 442); (444, 447); (452, 659); (661, 687); (880, 883); (886,
    887); (891, 893); (895, 895); (902, 902); (904, 906); (908, 908); (910,
    929); (931, 1013); (1015, 1153); (1162, 1327); (1329, 1366); (1376, 1416);
    (4256, 4293); (4295, 4295); (4301, 4301); (4304, 4346); (4349, 4351); (5024,
    5109); (5112, 5117); (7296, 7304); (7312, 7354); (7357, 7359); (7424, 7467);
    (7531, 7543); (7545, 7578); (7680, 7957); (7960, 7965); (7968, 8005); (8008,
    8013); (8016, 8023); (8025, 8025); (8027, 8027); (8029, 8029); (8031, 8061);
    (8064, 8116); (8118, 8124); (8126, 8126); (8130, 8132); (8134, 8140); (8144,
    8147); (8150, 8155); (8160, 8172); (8178, 8180); (8182, 8188); (8450, 8450);
    (8455, 8455); (8458, 8467); (8469, 8469); (8473, 8477); (8484, 8484); (8486,
    8486); (8488, 8488); (8490, 8493); (8495, 8500); (8505, 8505); (8508, 8511);
    (8517, 8521); (8526, 8526); (8544, 8575); (8579, 8580); (9398, 9449);
    (11264, 11387); (11390, 11492); (11499, 11502); (11506, 11507); (11520,
    11557); (11559, 11559); (11565, 11565); (42560, 42605); (42624, 42651);
    (42786, 42863); (42865, 42887); (42891, 42894); (42896, 42954); (42960,
    42961); (42963, 42963); (42965, 42969); (42997, 42998); (43002, 43002);
    (43824, 43866); (43872, 43880); (43888, 43967); (64256, 64262); (64275,
    64279); (65313, 65338); (65345, 65370); (66560, 66639); (66736, 66771);
    (66776, 66811); (66928, 66938); (66940, 66954); (66956, 66962); (66964,
    66965); (66967, 66977); (66979, 66993); (66995, 67001); (67003, 67004);
    (68736, 68786); (68800, 68850); (71840, 71903); (93760, 93823); (119808,
    119892); (119894, 119964); (119966, 119967); (119970, 119970); (119973,
    119974); (119977, 119980); (119982, 119993); (119995, 119995); (119997,
    120003); (120005, 120069); (120071, 120074); (120077, 120084); (120086,
    120092); (120094, 120121); (120123, 120126); (120128, 120132); (120134,
    120134); (120138, 120144); (120146, 120485); (120488, 120512); (120514,
    120538); (120540, 120570); (120572, 120596); (120598, 120628); (120630,
    120654); (120656, 120686); (120688, 120712); (120714, 120744); (120746,
    120770); (120772, 120779); (122624, 122633); (122635, 122654); (125184,
    125251); (127280, 127305); (127312, 127337); (127344, 127369) ]%N.

(** The case-ignorable code points, as ranges. *)
Definition caseIgnorableRanges : list (N * N) :=
  [ (39, 39); (46, 46); (58, 58); (94, 94); (96, 96); (168, 168); (173, 173);
    (175, 175); (180, 180); (183, 184); (688, 879); (884, 885); (890, 890);
    (900, 901); (903, 903); (1155, 1161); (1369, 1369); (1375, 1375); (1425,
    1469); (1471, 1471); (1473, 1474); (1476, 1477); (1479, 1479); (1524, 1524);
    (1536, 1541); (1552, 1562); (1564, 1564); (1600, 1600); (1611, 1631); (1648,
    1648); (1750, 1757); (1759, 1768); (1770, 1773); (1807, 1807); (1809, 1809);
    (1840, 1866); (1958, 1968); (2027, 2037); (2042, 2042); (2045, 2045); (2070,
    2093); (2137, 2139); (2184, 2184); (2192, 2193); (2200, 2207); (2249, 2306);
    (2362, 2362); (2364, 2364); (2369, 2376); (2381, 2381); (2385, 2391); (2402,
    2403); (2417, 2417); (2433, 2433); (2492, 2492); (2497, 2500); (2509, 2509);
    (2530, 2531); (2558, 2558); (2561, 2562); (2620, 2620); (2625, 2626); (2631,
    2632); (2635, 2637); (2641, 2641); (2672, 2673); (2677, 2677); (2689, 2690);
    (2748, 2748); (2753, 2757); (2759, 2760); (2765, 2765); (2786, 2787); (2810,
    2815); (2817, 2817); (2876, 2876); (2879, 2879); (2881, 2884); (2893, 2893);
    (2901, 2902); (2914, 2915); (2946, 2946); (3008, 3008); (3021, 3021); (3072,
    3072); (3076, 3076); (3132, 3132); (3134, 3136); (3142, 3144); (3146, 3149);
    (3157, 3158); (3170, 3171); (3201, 3201); (3260, 3260); (3263, 3263); (3270,
    3270); (3276, 3277); (3298, 3299); (3328, 3329); (3387, 3388); (3393, 3396);
    (3405, 3405); (3426, 3427); (3457, 3457); (3530, 3530); (3538, 3540); (3542,
    3542); (3633, 3633); (3636, 3642); (3654, 3662); (3761, 3761); (3764, 3772);
    (3782, 3782); (3784, 3789); (3864, 3865); (3893, 3893); (3895, 3895); (3897,
    3897); (3953, 3966); (3968, 3972); (3974, 3975); (3981, 3991); (3993, 4028);
    (4038, 4038); (4141, 4144); (4146, 4151); (4153, 4154); (4157, 4158); (4184,
    4185); (4190, 4192); (4209, 4212); (4226, 4226); (4229, 4230); (4237, 4237);
    (4253, 4253); (4348, 4348); (4957, 4959); (5906, 5908); (5938, 5939); (5970,
    5971); (6002, 6003); (6068, 6069); (6071, 6077); (6086, 6086); (6089, 6099);
    (6103, 6103); (6109, 6109); (6155, 6159); (6211, 6211); (6277, 6278); (6313,
    6313); (6432, 6434); (6439, 6440); (6450, 6450); (6457, 6459); (6679, 6680);
    (6683, 6683); (6742, 6742); (6744, 6750); (6752, 6752); (6754, 6754); (6757,
    6764); (6771, 6780); (6783, 6783); (6823, 6823); (6832, 6862); (6912, 6915);
    (6964, 6964); (6966, 6970); (6972, 6972); (6978, 6978); (7019, 7027); (7040,
    7041); (7074, 7077); (7080, 7081); (7083, 7085); (7142, 7142); (7144, 7145);
    (7149, 7149); (7151, 7153); (7212, 7219); (7222, 7223); (7288, 7293); (7376,
    7378); (7380, 7392); (7394, 7400); (7405, 7405); (7412, 7412); (7416, 7417);
    (7468, 7530); (7544, 7544); (7579, 7679); (8125, 8125); (8127, 8129); (8141,
    8143); (8157, 8159); (8173, 8175); (8189, 8190); (8203, 8207); (8216, 8217);
    (8228, 8228); (8231, 8231); (8234, 8238); (8288, 8292); (8294, 8303); (8305,
    8305); (8319, 8319); (8336, 8348); (8400, 8432); (11388, 11389); (11503,
    11505); (11631, 11631); (11647, 11647); (11744, 11775); (11823, 11823);
    (12293, 12293); (12330, 12333); (12337, 12341); (12347, 12347); (12441,
    12446); (12540, 12542); (40981, 40981); (42232, 42237); (42508, 42508);
    (42607, 42610); (42612, 42621); (42623, 42623); (42652, 42655); (42736,
    42737); (42752, 42785); (42864, 42864); (42888, 42890); (42994, 42996);
    (43000, 43001); (43010, 43010); (43014, 43014); (43019, 43019); (43045,
    43046); (43052, 43052); (43204, 43205); (43232, 43249); (43263, 43263);
    (43302, 43309); (43335, 43345); (43392, 43394); (43443, 43443); (43446,
    43449); (43452, 43453); (43471, 43471); (43493, 43494); (43561, 43566);
    (43569, 43570); (43573, 43574); (43587, 43587); (43596, 43596); (43632,
    43632); (43644, 43644); (43696, 43696); (43698, 43700); (43703, 43704);
    (43710, 43711); (43713, 43713); (43741, 43741); (43756, 43757); (43763,
    43764); (43766, 43766); (43867, 43871); (43881, 43883); (44005, 44005);
    (44008, 44008); (44013, 44013); (64286, 64286); (64434, 64450); (65024,
    65039); (65043, 65043); (65056, 65071); (65106, 65106); (65109, 65109);
    (65279, 65279); (65287, 65287); (65294, 65294); (65306, 65306); (65342,
    65342); (65344, 65344); (65392, 65392); (65438, 65439); (65507, 65507);
    (65529, 65531); (66045, 66045); (66272, 66272); (66422, 66426); (67456,
    67461); (67463, 67504); (67506, 67514); (68097, 68099); (68101, 68102);
    (68108, 68111); (68152, 68154); (68159, 68159); (68325, 68326); (68900,
    68903); (69291, 69292); (69446, 69456); (69506, 69509); (69633, 69633);
    (69688, 69702); (69744, 69744); (69747, 69748); (69759, 69761); (69811,
    69814); (69817, 69818); (69821, 69821); (69826, 69826); (69837, 69837);
    (69888, 69890); (69927, 69931); (69933, 69940); (70003, 70003); (70016,
    70017); (70070, 70078); (70089, 70092); (70095, 70095); (70191, 70193);
    (70196, 70196); (70198, 70199); (70206, 70206); (70367, 70367); (70371,
    70378); (70400, 70401); (70459, 70460); (70464, 70464); (70502, 70508);
    (70512, 70516); (70712, 70719); (70722, 70724); (70726, 70726); (70750,
    70750); (70835, 70840); (70842, 70842); (70847, 70848); (70850, 70851);
    (71090, 71093); (71100, 71101); (71103, 71104); (71132, 71133); (71219,
    71226); (71229, 71229); (71231, 71232); (71339, 71339); (71341, 71341);
    (71344, 71349); (71351, 71351); (71453, 71455); (71458, 71461); (71463,
    71467); (71727, 71735); (71737, 71738); (71995, 71996); (71998, 71998);
    (72003, 72003); (72148, 72151); (72154, 72155); (72160, 72160); (72193,
    72202); (72243, 72248); (72251, 72254); (72263, 72263); (72273, 72278);
    (72281, 72283); (72330, 72342); (72344, 72345); (72752, 72758); (72760,
    72765); (72767, 72767); (72850, 72871); (72874, 72880); (72882, 72883);
    (72885, 72886); (73009, 73014); (73018, 73018); (73020, 73021); (73023,
    73029); (73031, 73031); (73104, 73105); (73109, 73109); (73111, 73111);
    (73459, 73460); (78896, 78904); (92912, 92916); (92976, 92982); (92992,
    92995); (94031, 94031); (94095, 94111); (94176, 94177); (94179, 94180);
    (110576, 110579); (110581, 110587); (110589, 110590); (113821, 113822);
    (113824, 113827); (118528, 118573); (118576, 118598); (119143, 119145);
    (119155, 119170); (119173, 119179); (119210, 119213); (119362, 119364);
    (121344, 121398); (121403, 121452); (121461, 121461); (121476, 121476);
    (121499, 121503); (121505, 121519); (122880, 122886); (122888, 122904);
    (122907, 122913); (122915, 122916); (122918, 122922); (123184, 123197);
    (123566, 123566); (123628, 123631); (125136, 125142); (125252, 125259);
    (127995, 127999); (917505, 917505); (917536, 917631); (917760, 917999) ]%N.


Definition inRanges (rs : list (N * N)) (c : N) : bool :=
  existsb (λ r, (r.1 <=? c) && (c <=? r.2))%N rs.

Definition lowerOf (run : N * N * N * N) (c : N) : option N :=
  match run with
  | (first, last, step, image) =>
      if ((first <=? c) && (c <=? last) && ((c - first) mod step =? 0))%N
      then Some (image + (c - first))%N
      else None
  end.

Fixpoint lowerIn (runs : list (N * N * N * N)) (c : N) : N :=
  match runs with
  | [] => c
  | run :: rest =>
      match lowerOf run c with
      | Some c' => c'
      | None => lowerIn rest c
      end
  end.

Definition simpleLower (c : N) : N := lowerIn lowerRuns c.

Definition isCaseIgnorable (u : scalar) : bool :=
  match u with
  | CodePoint c => inRanges caseIgnorableRanges c
  | Byte _ => false
  end.

Definition isCased (u : scalar) : bool :=
  match u with
  | CodePoint c => inRanges casedRanges c
  | Byte _ => false
  end.

(** A cased letter follows, case-ignorable code points apart. *)
Fixpoint casedFollows (us : list scalar) : bool :=
  match us with
  | [] => false
  | u :: rest => if isCaseIgnorable u then casedFollows rest else isCased u
  end.

(** [afterCased]: a cased letter precedes, case-ignorable code points
    apart. *)
Fixpoint lowerScalars (afterCased : bool) (us : list scalar) : list scalar :=
  match us with
  | [] => []
  | u :: rest =>
      (match u with
       | CodePoint c =>
           if (c =? 931)%N then
             [CodePoint (if afterCased && negb (casedFollows rest) then 962 else 963)%N]
           else if (c =? 304)%N then [CodePoint 105%N; CodePoint 775%N]
           else [CodePoint (simpleLower c)]
       | Byte b => [Byte b]
       end) ++
      lowerScalars (if isCaseIgnorable u then afterCased else isCased u) rest
  end.

Definition toLowerCase (s : string) : string :=
  utf8Encode (lowerScalars false (utf8Decode s)).

(** ** Strings: [includes] *)

Fixpoint startsWith (s p : string) {struct p} : bool :=
  match p, s with
  | EmptyString, _ => true
  | String a p', String b s' => Ascii.eqb a b && startsWith s' p'
  | String _ _, EmptyString => false
  end.

(** [s.includes(p)]: [p] occurs in [s] at some position. *)
Fixpoint includes (s p : string) : bool :=
  startsWith s p ||
  match s with
  | EmptyString => false
  | String _ s' => includes s' p
  end.

(** ** The Job type *)

Inductive JobStatus : Type :=
| PENDING | APPLIED | INTERVIEWING | ACCEPTED | REJECTED.

#[global] Instance JobStatus_eq_dec : EqDecision JobStatus.
Proof. solve_decision. Defined.

Definition statusName (s : JobStatus) : string :=
  match s with
  | PENDING => "PENDING"
  | APPLIED => "APPLIED"
  | INTERVIEWING => "INTERVIEWING"
  | ACCEPTED => "ACCEPTED"
  | REJECTED => "REJECTED"
  end.

Definition allStatuses : list JobStatus :=
  [PENDING; APPLIED; INTERVIEWING; ACCEPTED; REJECTED].

(** The status of a job is one of the five enumerated values. *)
Definition validStatus (j : obj) : Prop :=
  ∃ s : JobStatus, get "status" j = Str (statusName s).

(** The string fields the search reads. *)
Definition strField (k : string) (j : obj) : option string :=
  match get k j with
  | Str s => Some s
  | Undefined => None
  end.

(** A job as the type [Job] promises it to the filter: company, position
    and location are strings. *)
Definition typedJob (j : obj) : Prop :=
  is_Some (strField "company" j) ∧
  is_Some (strField "position" j) ∧
  is_Some (strField "location" j).

(** ** Dashboard: the search filter (Dashboard.tsx, lines 92-96) *)

(** The callback of [jobs.filter]. [None] is the [TypeError] of calling
    [toLowerCase] on [undefined]; [||] evaluates its right operand only
    when the left one is false. *)
Definition matchesSearch (search : string) (job : obj) : option bool :=
  c ← strField "company" job;
  if includes (toLowerCase c) (toLowerCase search) then Some true else
  p ← strField "position" job;
  if includes (toLowerCase p) (toLowerCase search) then Some true else
  l ← strField "location" job;
  Some (includes (toLowerCase l) (toLowerCase search)).

(** [Array.prototype.filter] with a callback that may throw. *)
Fixpoint jsFilter {A} (f : A → option bool) (l : list A) : option (list A) :=
  match l with
  | [] => Some []
  | x :: l' =>
      match f x with
      | Some true => r ← jsFilter f l'; Some (x :: r)
      | Some false => jsFilter f l'
      | None => None
      end
  end.

Definition filteredJobs (jobs : list obj) (search : string) : option (list obj) :=
  jsFilter (matchesSearch search) jobs.

(** ** Dashboard: the status boards (Dashboard.tsx, lines 98-129, 170-181) *)

Record Board := { board_status : JobStatus; board_title : string; board_color : string }.

Definition boards : list Board :=
  [ {| board_status := PENDING; board_title := "Wishlist"; board_color := "text-yellow-500" |};
    {| board_status := APPLIED; board_title := "Applied"; board_color := "text-blue-500" |};
    {| board_status := INTERVIEWING; board_title := "Interviews"; board_color := "text-purple-500" |};
    {| board_status := ACCEPTED; board_title := "Accepted"; board_color := "text-green-500" |};
    {| board_status := REJECTED; board_title := "Rejected"; board_color := "text-red-500" |} ].

(** [job.status === board.status] *)
Definition onBoard (b : Board) (job : obj) : bool :=
  bool_decide (get "status" job = Str (statusName (board_status b))).

(** The [jobs] prop of the [StatusBoard] of [b]. *)
Definition boardJobs (filtered : list obj) (b : Board) : list obj :=
  List.filter (onBoard b) filtered.

(** ** The search of the specification: case-insensitive substring *)

(** Two characters are the same letter up to case: equal, or an upper-case
    ASCII letter and its lower-case form. *)
Inductive sameLetter : ascii → ascii → Prop :=
| same_char a : sameLetter a a
| same_upper_lower n :
    (65 ≤ n ≤ 90)%nat → sameLetter (ascii_of_nat n) (ascii_of_nat (n + 32))
| same_lower_upper n :
    (65 ≤ n ≤ 90)%nat → sameLetter (ascii_of_nat (n + 32)) (ascii_of_nat n).

Inductive sameIgnoringCase : string → string → Prop :=
| sic_empty : sameIgnoringCase "" ""
| sic_char a b s t :
    sameLetter a b → sameIgnoringCase s t →
    sameIgnoringCase (String a s) (String b t).

(** [search] occurs in [field] as a case-insensitive substring. *)
Definition containsIgnoringCase (field search : string) : Prop :=
  ∃ pre mid post,
    field = String.append pre (String.append mid post) ∧
    sameIgnoringCase mid search.

(** The job the specification's search keeps. *)
Definition specMatch (search : string) (j : obj) : Prop :=
  (∃ c, strField "company" j = Some c ∧ containsIgnoringCase c search) ∨
  (∃ p, strField "position" j = Some p ∧ containsIgnoringCase p search) ∨
  (∃ l, strField "location" j = Some l ∧ containsIgnoringCase l search).

(** What the code tests: the lower-cased field contains the lower-cased
    search string. *)
Definition lowerContains (field search : string) : Prop :=
  ∃ pre post,
    toLowerCase field
    = String.append pre (String.append (toLowerCase search) post).

Definition lowerMatch (search : string) (j : obj) : Prop :=
  (∃ c, strField "company" j = Some c ∧ lowerContains c search) ∨
  (∃ p, strField "position" j = Some p ∧ lowerContains p search) ∨
  (∃ l, strField "location" j = Some l ∧ lowerContains l search).

(** The three fields the search reads are ASCII strings. *)
Definition asciiFields (j : obj) : Prop :=
  ∀ k f, k ∈ ["company"; "position"; "location"] →
         strField k j = Some f → isAscii f = true.

(** ** The world of the handlers *)

(** What the handlers read from outside: the [n]-th reading of each. *)
Record Env := {
  randomUUID : nat → string;   (* crypto.randomUUID() *)
  toISOString : nat → string;  (* new Date().toISOString() *)
  fulfilled : nat → bool;      (* does the SDK call settle without an error *)
  autoId : nat → string;       (* the document id [addDoc] generates *)
}.

(** The calls into the database and authentication SDK. *)
Inductive SdkCall : Type :=
| EnableNetwork
| DisableNetwork
| OnSnapshot (uid : string)
| UpdateDoc (id : string) (data : obj)
| AddDoc (data : obj)
| AuthLogout.

#[global] Instance SdkCall_eq_dec : EqDecision SdkCall.
Proof. solve_decision. Defined.

Inductive Event : Type :=
| Called (c : SdkCall)
| Failed (c : SdkCall)
| InvalidDocRef
| Unsubscribed
| ConsoleError (msg : string)
| ToastError (msg : string)
| ToastSuccess (msg : string)
| Navigate (path : string)
| SetShowForm (b : bool)
| SetEditingJob (j : option obj).

#[global] Instance Event_eq_dec : EqDecision Event.
Proof. solve_decision. Defined.

Record World := {
  reads : nat;                 (* readings of the environment made so far *)
  network : bool;              (* database network access *)
  db : gmap string obj;        (* the collection [jobs]: document id to data *)
  trace : list Event;          (* what happened, oldest first *)
}.

Definition setReads (n : nat) (w : World) : World :=
  {| reads := n; network := network w; db := db w; trace := trace w |}.
Definition setNetwork (b : bool) (w : World) : World :=
  {| reads := reads w; network := b; db := db w; trace := trace w |}.
Definition setDb (d : gmap string obj) (w : World) : World :=
  {| reads := reads w; network := network w; db := d; trace := trace w |}.
Definition log (e : Event) (w : World) : World :=
  {| reads := reads w; network := network w; db := db w; trace := trace w ++ [e] |}.

(** A handler either returns or throws, and changes the world. *)
Inductive Result (A : Type) : Type :=
| Ok (a : A)
| Throw.
Arguments Ok {A} a.
Arguments Throw {A}.

Definition M (A : Type) : Type := World → Result A * World.

#[global] Instance M_ret : MRet M := λ A a w, (Ok a, w).
#[global] Instance M_bind : MBind M := λ A B f m w,
  match m w with
  | (Ok a, w') => f a w'
  | (Throw, w') => (Throw, w')
  end.

#[global] Instance M_fmap : FMap M := λ A B f m w,
  match m w with
  | (Ok a, w') => (Ok (f a), w')
  | (Throw, w') => (Throw, w')
  end.

Definition throw {A} : M A := λ w, (Throw, w).

(** [try { body } catch { handler }] *)
Definition tryCatch {A} (body handler : M A) : M A := λ w,
  match body w with
  | (Ok a, w') => (Ok a, w')
  | (Throw, w') => handler w'
  end.

Definition emit (e : Event) : M unit := λ w, (Ok (), log e w).

(** The index of the next reading. *)
Definition tick : M nat := λ w, (Ok (reads w), setReads (S (reads w)) w).

(** What a call does to the database when it is fulfilled; [None] when the
    database refuses it: [updateDoc] needs the document to exist and sets
    the given fields on it, [addDoc] creates a document under a new id.
    The keys of [db] are the ids of the documents of the collection, and
    the model holds no document below them: a reference whose path is
    nested finds none. *)
Definition applied (c : SdkCall) (newId : string) (w : World) : option World :=
  match c with
  | EnableNetwork => Some (setNetwork true w)
  | DisableNetwork => Some (setNetwork false w)
  | OnSnapshot _ => Some w
  | AuthLogout => Some w
  | UpdateDoc id data =>
      match db w !! id with
      | Some old => Some (setDb (<[id := spread old data]> (db w)) w)
      | None => None
      end
  | AddDoc data =>
      match db w !! newId with
      | Some _ => None
      | None => Some (setDb (<[newId := data]> (db w)) w)
      end
  end.

Section Handlers.
Variable env : Env.

Definition now : M string := n ← tick; mret (toISOString env n).
Definition newUUID : M string := n ← tick; mret (randomUUID env n).

(** The [n]-th reading decides whether the call is fulfilled. *)
Definition settle (c : SdkCall) (n : nat) : M unit := λ w,
  if fulfilled env n
  then match applied c (autoId env n) w with
       | Some w' => (Ok (), w')
       | None => (Throw, log (Failed c) w)
       end
  else (Throw, log (Failed c) w).

(** [await c]: the call is made once; it throws when it is rejected. *)
Definition await (c : SdkCall) : M unit :=
  emit (Called c);; n ← tick; settle c n.

(** A call whose promise is dropped: a rejection reaches no handler. *)
Definition detached (c : SdkCall) : M unit :=
  tryCatch (await c) (mret ()).
End Handlers.
(** ** JobForm *)

(** The initial [formData] (JobForm, lines 12-24): [job || { ... }]. *)
Definition blankForm : obj :=
  {[ "company" := Str ""; "position" := Str ""; "status" := Str (statusName PENDING);
     "location" := Str ""; "salary" := Str ""; "applicationDeadline" := Str "";
     "interviewDate" := Str ""; "notes" := Str ""; "url" := Str "" ]}.

Definition initialFormData (job : option obj) : obj :=
  match job with
  | Some j => j
  | None => blankForm
  end.

(** The text inputs of the form and the property each one sets. *)
Inductive TextInput : Type :=
| Company | Position | Location | Salary
| ApplicationDeadline | InterviewDate | Url | Notes.

Definition inputName (i : TextInput) : string :=
  match i with
  | Company => "company"
  | Position => "position"
  | Location => "location"
  | Salary => "salary"
  | ApplicationDeadline => "applicationDeadline"
  | InterviewDate => "interviewDate"
  | Url => "url"
  | Notes => "notes"
  end.


(** An [onChange] of the form: a text input with its new value, or the
    [select] with the option chosen. *)
Inductive FormEvent : Type :=
| ChangeText (i : TextInput) (v : string)
| ChangeStatus (s : JobStatus).

(** [setFormData({ ...formData, field: e.target.value })] *)
Definition onChange (formData : obj) (e : FormEvent) : obj :=
  match e with
  | ChangeText i v => <[inputName i := Str v]> formData
  | ChangeStatus s => <["status" := Str (statusName s)]> formData
  end.

(** The [formData] after the user's changes to a form opened on [job]. *)
Definition formAfter (job : option obj) (es : list FormEvent) : obj :=
  foldl onChange (initialFormData job) es.

(** [a || b] on values, for a [b] without effects. *)
Definition orElse (a b : value) : value := if truthy a then a else b.

(** ** Document paths *)

(** [path.split('/')] *)
Fixpoint splitSlash (path : string) : list string :=
  match path with
  | EmptyString => [EmptyString]
  | String c rest =>
      if Ascii.eqb c "/"%char then EmptyString :: splitSlash rest
      else match splitSlash rest with
           | seg :: segs => String c seg :: segs
           | [] => [String c EmptyString]
           end
  end.

(** [path.split('/').filter(segment => segment.length > 0)] *)
Definition pathSegments (path : string) : list string :=
  List.filter (λ seg, negb (String.eqb seg "")) (splitSlash path).

(** [segments.join('/')] *)
Fixpoint joinSegments (segs : list string) : string :=
  match segs with
  | [] => ""
  | [seg] => seg
  | seg :: rest => String.append seg (String "/"%char (joinSegments rest))
  end.

Section Components.
Variable env : Env.

(** The record the form hands to [onSubmit] (JobForm, lines 28-33).
    The right operand of [||] is evaluated, and the environment read,
    only when the left one is falsy. *)
Definition submittedJob (job : option obj) (formData : obj) : M obj :=
  id ← (if truthy (optGet "id" job) then mret (optGet "id" job)
        else Str <$> newUUID env);
  appliedDate ← (if truthy (optGet "appliedDate" job)
                 then mret (optGet "appliedDate" job)
                 else Str <$> now env);
  mret (<["notes" := orElse (get "notes" formData) (Str "")]>
          (<["appliedDate" := appliedDate]> (<["id" := id]> formData))).

(** [JobForm.handleSubmit] (lines 26-35). *)
Definition JobForm_handleSubmit (job : option obj) (formData : obj)
    (onSubmit : obj → M unit) (onClose : M unit) : M unit :=
  j ← submittedJob job formData;
  onSubmit j;;
  onClose.

(** ** Dashboard *)

(** [user?.uid] *)
Definition uidOf (user : option string) : value :=
  match user with
  | Some uid => Str uid
  | None => Undefined
  end.

(** [doc(db, 'jobs', id)] of the database SDK. The path of the
    reference is made of the segments of ['jobs'] and of [id]:
    [ResourcePath.fromString] refuses an argument that contains [//],
    splits it at the slashes and drops the empty segments, and [doc]
    refuses a path with an odd number of segments; [id.indexOf] of an
    [id] that is [undefined] is a [TypeError]. With the one segment of
    ['jobs'], a reference is made when [id] has an odd number of
    segments. [docPath] is that path from the collection on: the
    document id when [id] is one segment. *)
Definition docPath (id : value) : option string :=
  match id with
  | Undefined => None
  | Str s =>
      if includes s "//" then None
      else if Nat.odd (length (pathSegments s))
           then Some (joinSegments (pathSegments s))
           else None
  end.

Definition docRef (id : value) : M string :=
  match docPath id with
  | Some ref => mret ref
  | None => emit InvalidDocRef;; throw
  end.

(** The object written by the edit branch (lines 59-63). *)
Definition updatePayload (user : option string) (job : obj) (t : string) : obj :=
  <["updatedAt" := Str t]> (<["userId" := uidOf user]> job).

(** The object written by the create branch (lines 66-71). *)
Definition addPayload (user : option string) (job : obj) (t1 t2 : string) : obj :=
  <["updatedAt" := Str t2]> (<["createdAt" := Str t1]> (<["userId" := uidOf user]> job)).

(** [Dashboard.handleSubmit] (lines 56-80). *)
Definition Dashboard_handleSubmit (user : option string) (editingJob : option obj)
    (job : obj) : M unit :=
  tryCatch
    ((match editingJob with
      | Some _ =>
          ref ← docRef (get "id" job);
          t ← now env;
          await env (UpdateDoc ref (updatePayload user job t));;
          emit (ToastSuccess "Job updated successfully")
      | None =>
          t1 ← now env;
          t2 ← now env;
          await env (AddDoc (addPayload user job t1 t2));;
          emit (ToastSuccess "Job added successfully")
      end);;
     emit (SetShowForm false);;
     emit (SetEditingJob None))
    (emit (ConsoleError "Error saving job:");;
     emit (ToastError "Error saving job")).

(** The [onClose] the Dashboard gives the form (lines 188-191). *)
Definition Dashboard_onClose : M unit :=
  emit (SetShowForm false);;
  emit (SetEditingJob None).

(** Submitting the form the Dashboard shows: the form's [job] is the
    Dashboard's [editingJob]. *)
Definition submitForm (user : option string) (editingJob : option obj)
    (formData : obj) : M unit :=
  JobForm_handleSubmit editingJob formData
    (Dashboard_handleSubmit user editingJob) Dashboard_onClose.

(** [handleLogout] (lines 82-90). *)
Definition handleLogout : M unit :=
  tryCatch
    (await env DisableNetwork;;
     await env AuthLogout;;
     emit (Navigate "/"))
    (emit (ToastError "Error logging out")).

(** [setupFirestore] (lines 28-43): the unsubscribe function of the
    listener, or [undefined] after an error. *)
Definition setupFirestore (uid : string) : M (option unit) :=
  tryCatch
    (await env EnableNetwork;;
     await env (OnSnapshot uid);;
     mret (Some ()))
    (emit (ConsoleError "Error setting up Firestore:");;
     emit (ToastError "Error loading data");;
     mret None).

(** The cleanup the effect returns (lines 48-53), run once the promise
    of [setupFirestore] has resolved: [unsub?.()], then [disableNetwork]
    without awaiting it. *)
Definition cleanup (unsub : option unit) : M unit :=
  (match unsub with
   | Some _ => emit Unsubscribed
   | None => mret ()
   end);;
  detached env DisableNetwork.

(** The effect of the Dashboard (lines 24-54): with no user it returns
    at once and registers no cleanup. *)
Definition Dashboard_effect (user : option string) : M (option (option unit)) :=
  match user with
  | None => mret None
  | Some uid => unsub ← setupFirestore uid; mret (Some unsub)
  end.

(** Unmounting runs the cleanup of the effect, when there is one. *)
Definition Dashboard_unmount (registered : option (option unit)) : M unit :=
  match registered with
  | Some unsub => cleanup unsub
  | None => mret ()
  end.

(** A Dashboard that mounts and later unmounts. *)
Definition mountThenUnmount (user : option string) : M unit :=
  registered ← Dashboard_effect user;
  Dashboard_unmount registered.
End Components.

(** ** The subscription (Dashboard.tsx, lines 31-37) *)

(** The documents the query [where('userId', '==', uid)] selects. *)
Definition queryDocs (d : gmap string obj) (uid : string) : list (string * obj) :=
  List.filter (λ doc, bool_decide (get "userId" doc.2 = Str uid)) (map_to_list d).

(** [{ id: doc.id, ...doc.data() }]: a property [id] of the data wins
    over the document id. *)
Definition jobOfDoc (doc : string * obj) : obj :=
  spread {[ "id" := Str doc.1 ]} doc.2.

(** The [jobsData] the listener passes to [setJobs]. *)
Definition jobsData (d : gmap string obj) (uid : string) : list obj :=
  map jobOfDoc (queryDocs d uid).

(** The events a handler adds to the trace of [w]. *)
Definition emitted {A} (m : M A) (w : World) : list Event :=
  drop (length (trace w)) (trace (m w).2).

(** ** Failures and what follows them *)

Definition isFailure (e : Event) : bool :=
  match e with
  | Failed _ | InvalidDocRef => true
  | _ => false
  end.

Definition isCall (e : Event) : bool :=
  match e with
  | Called _ => true
  | _ => false
  end.

Definition isToastError (e : Event) : bool :=
  match e with
  | ToastError _ => true
  | _ => false
  end.

(** Every failure is followed by an error toast. *)
Fixpoint failuresToasted (evs : list Event) : bool :=
  match evs with
  | [] => true
  | e :: evs' =>
      (if isFailure e then existsb isToastError evs' else true)
      && failuresToasted evs'
  end.

(** No call into the SDK is made once one has failed: nothing is tried
    again. *)
Fixpoint nothingRetried (evs : list Event) : bool :=
  match evs with
  | [] => true
  | e :: evs' =>
      (if isFailure e then forallb (λ e', negb (isCall e')) evs' else true)
      && nothingRetried evs'
  end.

(** The handler returns whatever fails in it, shows a toast for every
    failure and does not try again. *)
Definition handledLocally {A} (m : M A) (w : World) : Prop :=
  (∃ a w', m w = (Ok a, w')) ∧
  failuresToasted (emitted m w) = true ∧
  nothingRetried (emitted m w) = true.

(** ** The invariant of the jobs the system keeps *)




(** ** Sample data *)

Definition sampleJob (company position location status : string) : obj :=
  {[ "company" := Str company; "position" := Str position;
     "location" := Str location; "status" := Str status ]}.

Definition acmeJob : obj := sampleJob "Acme Corp" "Engineer" "Berlin" "PENDING".
Definition initechJob : obj := sampleJob "Initech" "Analyst" "Austin" "APPLIED".
Definition globexJob : obj := sampleJob "Globex" "ACME liaison" "Paris" "ARCHIVED".

Definition sampleJobs : list obj := [acmeJob; initechJob; globexJob].

Definition kosmosJob : obj := sampleJob "ΚΟΣΜΟΣ" "Engineer" "Athens" "PENDING".

Definition sampleEnv : Env :=
  {| randomUUID := λ _, "0b6e5f0c-uuid";
     toISOString := λ n, if decide (n = 1)%nat then "2024-05-01T10:00:00.000Z"
                         else "2024-05-01T10:00:00.001Z";
     fulfilled := λ _, true;
     autoId := λ _, "Zk3xAutoId" |}.

(** An environment in which every SDK call is rejected. *)
Definition offlineEnv : Env :=
  {| randomUUID := randomUUID sampleEnv;
     toISOString := toISOString sampleEnv;
     fulfilled := λ _, false;
     autoId := autoId sampleEnv |}.

(** The database client starts with network access enabled. *)
Definition freshWorld : World :=
  {| reads := 0; network := true; db := ∅; trace := [] |}.

Definition sampleForm : obj :=
  formAfter None [ChangeText Company "Acme Corp"; ChangeText Position "Engineer";
                  ChangeText Location "Berlin"; ChangeStatus APPLIED].

(** A job of the user [alice] as the subscription yields it. *)
Definition aliceJob : obj :=
  {[ "id" := Str "job-17"; "company" := Str "Acme Corp"; "position" := Str "Engineer";
     "location" := Str "Berlin"; "status" := Str "APPLIED"; "notes" := Str "";
     "appliedDate" := Str "2024-04-02T08:30:00.000Z"; "userId" := Str "alice" ]}.

(** A job whose [appliedDate] is the empty string. *)
Definition undatedJob : obj := <["appliedDate" := Str ""]> aliceJob.

(** The world after [alice] has added the sample form's job. *)
Definition createdWorld : World :=
  (submitForm sampleEnv (Some "alice") None sampleForm freshWorld).2.

(** The job the listener yields to [alice] in that world. *)
Definition addedJob : obj := hd ∅ (jobsData (db createdWorld) "alice").

(** A world whose collection holds the job of [alice] as one document. *)
Definition aliceWorld : World :=
  {| reads := 0; network := true; db := {[ "doc-17" := aliceJob ]}; trace := [] |}.

(** ** Dashboard: the view state and what the user does with it *)

(** The four [useState] cells of the Dashboard (lines 14-17). *)
Record DashboardState := {
  st_jobs : list obj;
  st_showForm : bool;
  st_editingJob : option obj;
  st_search : string;
}.

Definition initialDashboard : DashboardState :=
  {| st_jobs := []; st_showForm := false; st_editingJob := None; st_search := "" |}.

(** The state setters a handler has called, read off its trace. *)
Definition setState (st : DashboardState) (e : Event) : DashboardState :=
  match e with
  | SetShowForm b =>
      {| st_jobs := st_jobs st; st_showForm := b;
         st_editingJob := st_editingJob st; st_search := st_search st |}
  | SetEditingJob j =>
      {| st_jobs := st_jobs st; st_showForm := st_showForm st;
         st_editingJob := j; st_search := st_search st |}
  | _ => st
  end.

Definition afterEvents (st : DashboardState) (evs : list Event) : DashboardState :=
  foldl setState st evs.

(** What the user and the listener do to the Dashboard between two
    submissions: the button Add Application (lines 140-146), the [onEdit]
    of a board, which is [setEditingJob] (line 176), the search input
    (line 164), a snapshot of the listener (line 37) and the [onClose] of
    the form (lines 188-191). *)
Inductive UiEvent : Type :=
| ClickAdd
| ClickEdit (job : obj)
| TypeSearch (s : string)
| SnapshotArrives (jobsData : list obj)
| CloseForm.

Definition onUi (st : DashboardState) (e : UiEvent) : DashboardState :=
  match e with
  | ClickAdd => setState st (SetShowForm true)
  | ClickEdit job => setState st (SetEditingJob (Some job))
  | TypeSearch s =>
      {| st_jobs := st_jobs st; st_showForm := st_showForm st;
         st_editingJob := st_editingJob st; st_search := s |}
  | SnapshotArrives js =>
      {| st_jobs := js; st_showForm := st_showForm st;
         st_editingJob := st_editingJob st; st_search := st_search st |}
  | CloseForm => afterEvents st [SetShowForm false; SetEditingJob None]
  end.

(** [showForm && <JobForm job={editingJob} ... />] (lines 184-193): the
    [job] prop of the form on screen, if there is one. *)
Definition renderedForm (st : DashboardState) : option (option obj) :=
  if st_showForm st then Some (st_editingJob st) else None.

(** The heading of the form (JobForm, line 42) and the text of its submit
    button (line 165). *)
Definition formTitle (job : option obj) : string :=
  match job with
  | Some _ => "Edit Job Application"
  | None => "Add New Job Application"
  end.

Definition submitLabel (job : option obj) : string :=
  String.append (match job with Some _ => "Update" | None => "Add" end) " Application".

(** ** JobForm: the value shown by a date input *)

(** [s.split('T')[0]]: what precedes the first [T]. *)
Fixpoint beforeT (s : string) : string :=
  match s with
  | EmptyString => EmptyString
  | String c s' => if Ascii.eqb c "T" then EmptyString else String c (beforeT s')
  end.

(** [formData.applicationDeadline?.split('T')[0]] (lines 118 and 127). *)
Definition dateInputValue (k : string) (formData : obj) : value :=
  match get k formData with
  | Str s => Str (beforeT s)
  | Undefined => Undefined
  end.

(** ** Which jobs have a board *)

Definition hasBoard (job : obj) : bool :=
  existsb (λ b, onBoard b job) boards.

Definition isToast (e : Event) : bool :=
  match e with
  | ToastError _ | ToastSuccess _ => true
  | _ => false
  end.

Definition isToastSuccess (e : Event) : bool :=
  match e with
  | ToastSuccess _ => true
  | _ => false
  end.

(** The property a change of the form sets, and the value it gives it. *)
Definition eventKey (e : FormEvent) : string :=
  match e with
  | ChangeText i _ => inputName i
  | ChangeStatus _ => "status"
  end.

Definition eventValue (e : FormEvent) : value :=
  match e with
  | ChangeText _ v => Str v
  | ChangeStatus s => Str (statusName s)
  end.

(** [job?.id || crypto.randomUUID()], read in the world [w]. *)
Definition generatedId (env : Env) (job : option obj) (w : World) : value :=
  if truthy (optGet "id" job) then optGet "id" job
  else Str (randomUUID env (reads w)).


(** ** The application as a whole *)

(** The Dashboard on screen: the world of the handlers, the user of the
    auth context ([useAuth], line 18), the cleanup the effect has
    registered, the four state cells and, while the form is shown, the
    [formData] of the JobForm. *)
Record System := {
  sys_world : World;
  sys_user : option string;
  sys_cleanup : option (option unit);
  sys_ui : DashboardState;
  sys_form : option obj;
}.

(** A Dashboard just mounted with no user signed in: its effect has
    returned at once. *)
Definition startSystem (w : World) : System :=
  {| sys_world := w; sys_user := None; sys_cleanup := None;
     sys_ui := initialDashboard; sys_form := None |}.

(** What happens to the Dashboard: the auth context gives another user
    (or none), the Dashboard is unmounted and mounted again, the Logout
    button, a snapshot of the listener, the button Add Application, the
    edit button of a job on a board, the search input, a change in the
    form, the close button of the form, and the submission of the form.
    No guard in the source ties any of them to a user being signed in. *)
Inductive Action : Type :=
| AuthChanges (user : option string)
| Remount
| Logout
| Snapshot (uid : string)
| AddApplication
| EditJob (job : obj)
| Search (s : string)
| Change (e : FormEvent)
| Close
| Submit.

(** The [formData] of the form on screen after a render: the JobForm
    sets it from its [job] when it is mounted ([useState], lines 12-24),
    keeps it while it stays on screen, and loses it when it is removed. *)
Definition shownForm (before after : DashboardState) (formData : option obj)
    : option obj :=
  if st_showForm after
  then match formData with
       | Some fd => if st_showForm before then Some fd
                    else Some (initialFormData (st_editingJob after))
       | None => Some (initialFormData (st_editingJob after))
       end
  else None.

Definition render (s : System) (w : World) (st : DashboardState) : System :=
  {| sys_world := w; sys_user := sys_user s; sys_cleanup := sys_cleanup s;
     sys_ui := st; sys_form := shownForm (sys_ui s) st (sys_form s) |}.

(** The cleanup the effect registers, [None] when it registers none. *)
Definition registered (r : Result (option (option unit))) : option (option unit) :=
  match r with
  | Ok reg => reg
  | Throw => None
  end.

(** One action: [None] when the screen does not offer it. The effect
    depends on [user] (line 54): when the user changes, the cleanup of the
    last run is run, then the effect. A board offers the edit of the jobs
    it shows, which are among [jobs]; the form offers its changes, its
    close button and its submission while it is shown. A snapshot holds
    the documents the query selects for a uid. *)
Definition act (env : Env) (a : Action) (s : System) : option System :=
  match a with
  | AuthChanges user =>
      if decide (user = sys_user s) then Some s
      else
        let w1 := (Dashboard_unmount env (sys_cleanup s) (sys_world s)).2 in
        let r := Dashboard_effect env user w1 in
        Some {| sys_world := r.2; sys_user := user; sys_cleanup := registered r.1;
                sys_ui := sys_ui s; sys_form := sys_form s |}
  | Remount =>
      let w1 := (Dashboard_unmount env (sys_cleanup s) (sys_world s)).2 in
      let r := Dashboard_effect env (sys_user s) w1 in
      Some {| sys_world := r.2; sys_user := sys_user s; sys_cleanup := registered r.1;
              sys_ui := initialDashboard; sys_form := None |}
  | Logout => Some (render s (handleLogout env (sys_world s)).2 (sys_ui s))
  | Snapshot uid =>
      Some (render s (sys_world s)
              (onUi (sys_ui s) (SnapshotArrives (jobsData (db (sys_world s)) uid))))
  | AddApplication => Some (render s (sys_world s) (onUi (sys_ui s) ClickAdd))
  | EditJob job =>
      if decide (job ∈ st_jobs (sys_ui s))
      then Some (render s (sys_world s) (onUi (sys_ui s) (ClickEdit job)))
      else None
  | Search q => Some (render s (sys_world s) (onUi (sys_ui s) (TypeSearch q)))
  | Change e =>
      match sys_form s with
      | Some fd =>
          Some {| sys_world := sys_world s; sys_user := sys_user s;
                  sys_cleanup := sys_cleanup s; sys_ui := sys_ui s;
                  sys_form := Some (onChange fd e) |}
      | None => None
      end
  | Close =>
      match sys_form s with
      | Some _ => Some (render s (sys_world s) (onUi (sys_ui s) CloseForm))
      | None => None
      end
  | Submit =>
      match sys_form s with
      | Some fd =>
          let m := submitForm env (sys_user s) (st_editingJob (sys_ui s)) fd in
          Some (render s (m (sys_world s)).2
                  (afterEvents (sys_ui s) (emitted m (sys_world s))))
      | None => None
      end
  end.

Fixpoint run (env : Env) (acts : list Action) (s : System) : option System :=
  match acts with
  | [] => Some s
  | a :: acts' =>
      match act env a s with
      | Some s' => run env acts' s'
      | None => None
      end
  end.






(** A run: [alice] signs in, adds a job, sees it in a snapshot and signs
    out; the button Add Application is pressed once more. *)
Definition sampleRun : list Action :=
  [ AuthChanges (Some "alice"); AddApplication;
    Change (ChangeText Company "Acme Corp"); Change (ChangeStatus APPLIED);
    Submit; Snapshot "alice"; AuthChanges None; AddApplication ].
(** * Proofs *)

(** ** Characters and case *)

Lemma nat_of_ascii_inj a b : nat_of_ascii a = nat_of_ascii b → a = b.
Proof.
  intros H. rewrite <- (ascii_nat_embedding a), <- (ascii_nat_embedding b).
  by rewrite H.
Qed.

Lemma isUpper_spec c :
  isUpper c = true ↔ (65 ≤ nat_of_ascii c ≤ 90)%nat.
Proof.
  unfold isUpper. rewrite andb_true_iff, !Nat.leb_le. tauto.
Qed.

Lemma lowerChar_upper n :
  (65 ≤ n ≤ 90)%nat → lowerChar (ascii_of_nat n) = ascii_of_nat (n + 32).
Proof.
  intros Hn. unfold lowerChar.
  assert (E : nat_of_ascii (ascii_of_nat n) = n)
    by (apply nat_ascii_embedding; lia).
  destruct (isUpper (ascii_of_nat n)) eqn:U.
  - by rewrite E.
  - assert (isUpper (ascii_of_nat n) = true) by (apply isUpper_spec; lia).
    congruence.
Qed.

Lemma lowerChar_lower n :
  (65 ≤ n ≤ 90)%nat → lowerChar (ascii_of_nat (n + 32)) = ascii_of_nat (n + 32).
Proof.
  intros Hn. unfold lowerChar.
  destruct (isUpper (ascii_of_nat (n + 32))) eqn:U; [|done].
  apply isUpper_spec in U.
  rewrite nat_ascii_embedding in U; lia.
Qed.

Lemma sameLetter_lowerChar a b : sameLetter a b ↔ lowerChar a = lowerChar b.
Proof.
  split.
  - intros [c | n Hn | n Hn]; [done | |].
    + by rewrite (lowerChar_upper n), (lowerChar_lower n).
    + by rewrite (lowerChar_upper n), (lowerChar_lower n).
  - unfold lowerChar.
    destruct (isUpper a) eqn:Ua, (isUpper b) eqn:Ub; intros E.
    + apply isUpper_spec in Ua. apply isUpper_spec in Ub.
      apply (f_equal nat_of_ascii) in E.
      rewrite !nat_ascii_embedding in E by lia.
      assert (a = b) as -> by (apply nat_of_ascii_inj; lia).
      constructor.
    + apply isUpper_spec in Ua. subst b.
      rewrite <- (ascii_nat_embedding a) at 1. by constructor.
    + apply isUpper_spec in Ub. subst a.
      rewrite <- (ascii_nat_embedding b) at 2. by constructor.
    + subst. constructor.
Qed.

Lemma sameIgnoringCase_asciiLowerCase s t :
  sameIgnoringCase s t ↔ asciiLowerCase s = asciiLowerCase t.
Proof.
  split.
  - induction 1 as [| a b s t Hab _ IH]; [done |]. simpl.
    apply sameLetter_lowerChar in Hab. by rewrite Hab, IH.
  - revert t. induction s as [| a s IH]; intros [| b t]; simpl; try done.
    + constructor.
    + intros [= Hc Hs]. constructor; [by apply sameLetter_lowerChar | by apply IH].
Qed.

Lemma sameIgnoringCase_refl s : sameIgnoringCase s s.
Proof. by apply sameIgnoringCase_asciiLowerCase. Qed.

Lemma asciiLowerCase_append s t :
  asciiLowerCase (String.append s t)
  = String.append (asciiLowerCase s) (asciiLowerCase t).
Proof. induction s as [| c s IH]; simpl; [done | by rewrite IH]. Qed.

(** A lower-cased string splits where the original does. *)
Lemma asciiLowerCase_split s x y :
  asciiLowerCase s = String.append x y →
  ∃ a b, s = String.append a b ∧ asciiLowerCase a = x ∧ asciiLowerCase b = y.
Proof.
  revert s. induction x as [| c x IH]; intros s E; simpl in E.
  - by exists "", s.
  - destruct s as [| d s]; simpl in E; [done |].
    injection E as Hc Hs. destruct (IH _ Hs) as (a & b & -> & Ha & Hb).
    exists (String d a), b. simpl. by rewrite Hc, Ha.
Qed.

(** ** [toLowerCase] on ASCII strings *)

(** On a byte below 128 the lower-casing of code points is the one of
    ASCII letters: the 128 cases are computed. *)
Lemma lower_ascii_byte b :
  (N_of_ascii b <? 128)%N = true →
  (N_of_ascii b =? 931)%N = false ∧
  (N_of_ascii b =? 304)%N = false ∧
  simpleLower (N_of_ascii b) = N_of_ascii (lowerChar b) ∧
  (N_of_ascii (lowerChar b) <? 128)%N = true.
Proof.
  destruct b as [[] [] [] [] [] [] [] []]; intros H; try discriminate H;
    vm_compute; repeat split.
Qed.

Lemma utf8Decode_ascii s :
  isAscii s = true →
  utf8Decode s = map (λ b, CodePoint (N_of_ascii b)) (list_ascii_of_string s).
Proof.
  induction s as [| b s IH]; [done |]. cbn [isAscii].
  intros H. apply andb_true_iff in H as [Hb Hs].
  cbn [utf8Decode list_ascii_of_string map]. rewrite Hb. by rewrite IH.
Qed.

Lemma lowerScalars_ascii st l :
  Forall (λ b, (N_of_ascii b <? 128)%N = true) l →
  lowerScalars st (map (λ b, CodePoint (N_of_ascii b)) l)
  = map (λ b, CodePoint (N_of_ascii (lowerChar b))) l.
Proof.
  intros H. revert st. induction H as [| b l Hb _ IH]; intros st; [done |].
  destruct (lower_ascii_byte b Hb) as (E1 & E2 & E3 & _).
  cbn [map lowerScalars]. rewrite E1, E2, E3. cbn [app]. by rewrite IH.
Qed.

Lemma utf8Encode_ascii l :
  Forall (λ b, (N_of_ascii b <? 128)%N = true) l →
  utf8Encode (map (λ b, CodePoint (N_of_ascii b)) l) = string_of_list_ascii l.
Proof.
  induction 1 as [| b l Hb _ IH]; [done |].
  cbn [map utf8Encode utf8EncodeOne string_of_list_ascii]. rewrite Hb, IH.
  unfold byteOf. by rewrite ascii_N_embedding.
Qed.

Lemma isAscii_Forall s :
  isAscii s = true ↔
  Forall (λ b, (N_of_ascii b <? 128)%N = true) (list_ascii_of_string s).
Proof.
  induction s as [| b s IH]; cbn [isAscii list_ascii_of_string].
  - split; [constructor | done].
  - rewrite andb_true_iff, Forall_cons, IH. tauto.
Qed.

Lemma asciiLowerCase_list s :
  asciiLowerCase s = string_of_list_ascii (map lowerChar (list_ascii_of_string s)).
Proof. induction s as [| b s IH]; simpl; [done | by rewrite IH]. Qed.

(** On an ASCII string [toLowerCase] folds [A]..[Z] and nothing else. *)
Lemma toLowerCase_ascii s : isAscii s = true → toLowerCase s = asciiLowerCase s.
Proof.
  intros H. unfold toLowerCase. rewrite (utf8Decode_ascii s H).
  apply isAscii_Forall in H. rewrite (lowerScalars_ascii false _ H).
  rewrite asciiLowerCase_list.
  rewrite <- (utf8Encode_ascii (map lowerChar (list_ascii_of_string s))).
  - by rewrite map_map.
  - apply Forall_map. eapply Forall_impl; [exact H |].
    intros b Hb. by destruct (lower_ascii_byte b Hb) as (_ & _ & _ & ?).
Qed.

Lemma toLowerCase_empty : toLowerCase "" = "".
Proof. reflexivity. Qed.

Lemma isAscii_append s t :
  isAscii (String.append s t) = isAscii s && isAscii t.
Proof.
  induction s as [| b s IH]; [done |].
  change (isAscii (String b (String.append s t))
          = isAscii (String b s) && isAscii t).
  cbn [isAscii]. by rewrite IH, andb_assoc.
Qed.

Lemma sameLetter_ascii a b :
  sameLetter a b → (N_of_ascii a <? 128)%N = true → (N_of_ascii b <? 128)%N = true.
Proof.
  intros [c | n Hn | n Hn] Ha; [done | |]; unfold ascii_of_nat;
    rewrite N_ascii_embedding by lia; apply N.ltb_lt; lia.
Qed.

Lemma sameIgnoringCase_ascii s t :
  sameIgnoringCase s t → isAscii s = true → isAscii t = true.
Proof.
  induction 1 as [| a b s t Hab _ IH]; [done |]. cbn [isAscii].
  rewrite !andb_true_iff. intros [Ha Hs].
  split; [by eapply sameLetter_ascii | by apply IH].
Qed.

(** ** [startsWith] and [includes] *)

Lemma startsWith_spec s p :
  startsWith s p = true ↔ ∃ post, s = String.append p post.
Proof.
  revert s. induction p as [| a p IH]; intros s; simpl.
  - split; [by exists s | done].
  - destruct s as [| b s].
    + split; [done | by intros [post ?]].
    + rewrite andb_true_iff, Ascii.eqb_eq, IH. split.
      * intros [-> [post ->]]. by exists post.
      * intros [post [= -> ->]]. split; [done | by exists post].
Qed.

Lemma includes_spec s p :
  includes s p = true ↔
  ∃ pre post, s = String.append pre (String.append p post).
Proof.
  induction s as [| c s IH]; simpl; rewrite orb_true_iff, startsWith_spec.
  - split.
    + intros [[post E] | ?]; [by exists "", post | done].
    + intros (pre & post & E). left.
      destruct pre; simpl in E; [by exists post | done].
  - rewrite IH. split.
    + intros [[post E] | (pre & post & ->)].
      * by exists "", post.
      * by exists (String c pre), post.
    + intros (pre & post & E). destruct pre as [| d pre]; simpl in E.
      * left. by exists post.
      * right. injection E as -> ->. by exists pre, post.
Qed.

(** Byte by byte, the test of the code is the search of the
    specification. *)
Lemma includes_asciiLowerCase field search :
  includes (asciiLowerCase field) (asciiLowerCase search) = true ↔
  containsIgnoringCase field search.
Proof.
  rewrite includes_spec. unfold containsIgnoringCase. split.
  - intros (x & y & E).
    destruct (asciiLowerCase_split _ _ _ E) as (pre & r & -> & Hpre & Hr).
    destruct (asciiLowerCase_split _ _ _ Hr) as (mid & post & -> & Hmid & Hpost).
    exists pre, mid, post. split; [done |].
    by apply sameIgnoringCase_asciiLowerCase.
  - intros (pre & mid & post & -> & Hmid).
    apply sameIgnoringCase_asciiLowerCase in Hmid.
    exists (asciiLowerCase pre), (asciiLowerCase post).
    by rewrite !asciiLowerCase_append, Hmid.
Qed.

(** On ASCII strings the test of the code is the search of the
    specification. *)
Lemma includes_containsIgnoringCase field search :
  isAscii field = true → isAscii search = true →
  (includes (toLowerCase field) (toLowerCase search) = true ↔
   containsIgnoringCase field search).
Proof.
  intros Hf Hs. rewrite (toLowerCase_ascii _ Hf), (toLowerCase_ascii _ Hs).
  apply includes_asciiLowerCase.
Qed.

Lemma includes_lowerContains field search :
  includes (toLowerCase field) (toLowerCase search) = true ↔
  lowerContains field search.
Proof. apply includes_spec. Qed.

(** ** The search filter *)

Lemma typedJob_fields j :
  typedJob j →
  ∃ c p l, strField "company" j = Some c ∧
           strField "position" j = Some p ∧
           strField "location" j = Some l.
Proof. intros ([c ?] & [p ?] & [l ?]). by exists c, p, l. Qed.

Lemma matchesSearch_typed search j :
  typedJob j →
  ∃ b, matchesSearch search j = Some b ∧ (b = true ↔ lowerMatch search j).
Proof.
  intros Hj. destruct (typedJob_fields j Hj) as (c & p & l & Hc & Hp & Hl).
  unfold matchesSearch, lowerMatch. rewrite Hc, Hp, Hl. simpl.
  pose proof (includes_lowerContains c search) as Ec.
  pose proof (includes_lowerContains p search) as Ep.
  pose proof (includes_lowerContains l search) as El.
  destruct (includes (toLowerCase c) (toLowerCase search)).
  { exists true. split; [done |]. split; [| done]. intros _. left.
    exists c. split; [done | by apply Ec]. }
  destruct (includes (toLowerCase p) (toLowerCase search)).
  { exists true. split; [done |]. split; [| done]. intros _. right; left.
    exists p. split; [done | by apply Ep]. }
  eexists. split; [done |]. rewrite El. split.
  - intros H. right; right. by exists l.
  - intros [(? & [= <-] & H) | [(? & [= <-] & H) | (? & [= <-] & H)]].
    + by apply Ec in H.
    + by apply Ep in H.
    + done.
Qed.

(** On ASCII strings the two searches keep the same jobs. *)
Lemma lowerMatch_specMatch search j :
  isAscii search = true → asciiFields j →
  (lowerMatch search j ↔ specMatch search j).
Proof.
  intros Hs Hj. unfold lowerMatch, specMatch.
  assert (∀ k f, k ∈ ["company"; "position"; "location"] →
                 strField k j = Some f →
                 (lowerContains f search ↔ containsIgnoringCase f search)) as E.
  { intros k f Hk Hf. rewrite <- includes_lowerContains.
    apply includes_containsIgnoringCase; [by apply (Hj k) | done]. }
  assert ("company" ∈ ["company"; "position"; "location"]) as K1
    by (rewrite !elem_of_cons; tauto).
  assert ("position" ∈ ["company"; "position"; "location"]) as K2
    by (rewrite !elem_of_cons; tauto).
  assert ("location" ∈ ["company"; "position"; "location"]) as K3
    by (rewrite !elem_of_cons; tauto).
  split.
  - intros [(f & Hf & H) | [(f & Hf & H) | (f & Hf & H)]].
    + left. exists f. split; [done |]. by apply (E _ _ K1 Hf).
    + right; left. exists f. split; [done |]. by apply (E _ _ K2 Hf).
    + right; right. exists f. split; [done |]. by apply (E _ _ K3 Hf).
  - intros [(f & Hf & H) | [(f & Hf & H) | (f & Hf & H)]].
    + left. exists f. split; [done |]. by apply (E _ _ K1 Hf).
    + right; left. exists f. split; [done |]. by apply (E _ _ K2 Hf).
    + right; right. exists f. split; [done |]. by apply (E _ _ K3 Hf).
Qed.

Lemma jsFilter_elem_of {A} (f : A → option bool) l r :
  jsFilter f l = Some r → ∀ x, x ∈ r ↔ x ∈ l ∧ f x = Some true.
Proof.
  revert r. induction l as [| y l IH]; simpl; intros r E x.
  - injection E as <-. rewrite !elem_of_nil. tauto.
  - destruct (f y) as [[|] |] eqn:Fy; [| | done].
    + destruct (jsFilter f l) as [r' |]; [| done]. simpl in E.
      injection E as <-. rewrite !elem_of_cons, (IH r' eq_refl x).
      split; [intros [-> | [? ?]]; auto | intros [[-> | ?] ?]; auto].
    + rewrite elem_of_cons, (IH r E x).
      split; [intros [? ?]; auto | intros [[-> | ?] ?]; [congruence | auto]].
Qed.

Lemma jsFilter_total {A} (f : A → option bool) l :
  Forall (λ x, is_Some (f x)) l → is_Some (jsFilter f l).
Proof.
  induction 1 as [| y l [b Fy] _ [r IH]]; simpl; [by eexists |].
  rewrite Fy, IH. destruct b; by eexists.
Qed.

Lemma jsFilter_sublist {A} (f : A → option bool) l r :
  jsFilter f l = Some r → sublist r l.
Proof.
  revert r. induction l as [| y l IH]; simpl; intros r E.
  - injection E as <-. constructor.
  - destruct (f y) as [[|] |]; [| | done].
    + destruct (jsFilter f l) as [r' |]; [| done]. simpl in E.
      injection E as <-. constructor. by apply IH.
    + constructor. by apply IH.
Qed.

Lemma jsFilter_all {A} (f : A → option bool) l :
  Forall (λ x, f x = Some true) l → jsFilter f l = Some l.
Proof.
  induction 1 as [| y l Fy _ IH]; simpl; [done |]. by rewrite Fy, IH.
Qed.

Lemma filteredJobs_total jobs search :
  Forall typedJob jobs → is_Some (filteredJobs jobs search).
Proof.
  intros H. apply jsFilter_total. eapply Forall_impl; [exact H |].
  intros j Hj. destruct (matchesSearch_typed search j Hj) as (b & -> & _).
  by eexists.
Qed.

(** C1, as the code has it. On jobs of type [Job], the Dashboard's filter
    returns a list, and a job is in it exactly when it is one of the jobs
    and its lower-cased company, position or location contains the
    lower-cased search string; when the search string and these fields
    are ASCII strings, that is exactly when its company, position or
    location contains the search string as a case-insensitive
    substring. *)
Theorem C1_filteredJobs_lower_cased_substring jobs search :
  Forall typedJob jobs →
  ∃ l, filteredJobs jobs search = Some l ∧
       (∀ j, j ∈ l ↔ j ∈ jobs ∧ lowerMatch search j) ∧
       (isAscii search = true → Forall asciiFields jobs →
        ∀ j, j ∈ l ↔ j ∈ jobs ∧ specMatch search j).
Proof.
  intros Hjobs. destruct (filteredJobs_total jobs search Hjobs) as [l El].
  exists l. split; [done |].
  assert (∀ j, j ∈ l ↔ j ∈ jobs ∧ lowerMatch search j) as Hl.
  { intros j. rewrite (jsFilter_elem_of _ _ _ El j).
    split; intros [Hin H]; split; try done.
    - rewrite Forall_forall in Hjobs.
      destruct (matchesSearch_typed search j (Hjobs j Hin)) as (b & Eb & Hb).
      apply Hb. congruence.
    - rewrite Forall_forall in Hjobs.
      destruct (matchesSearch_typed search j (Hjobs j Hin)) as (b & Eb & Hb).
      apply Hb in H. congruence. }
  split; [exact Hl |].
  intros Hs Hascii j. rewrite Hl. rewrite Forall_forall in Hascii.
  split; intros [Hin H]; (split; [done |]);
    by apply (lowerMatch_specMatch search j Hs (Hascii j Hin)).
Qed.

Lemma includes_empty s : includes s "" = true.
Proof. by destruct s. Qed.

Lemma matchesSearch_empty j : typedJob j → matchesSearch "" j = Some true.
Proof.
  intros ([c Hc] & _). unfold matchesSearch. rewrite Hc, toLowerCase_empty.
  simpl. by rewrite includes_empty.
Qed.

(** C10. On jobs of type [Job], filtering with the empty search string
    returns the list of jobs itself, and for every search string the
    filter returns a sublist of the jobs, so the jobs it keeps stay in
    their relative order. *)
Theorem C10_filter_empty_identity_and_order jobs :
  Forall typedJob jobs →
  filteredJobs jobs "" = Some jobs ∧
  ∀ search, ∃ l, filteredJobs jobs search = Some l ∧ sublist l jobs.
Proof.
  intros Hjobs. split.
  - apply jsFilter_all. eapply Forall_impl; [exact Hjobs |].
    apply matchesSearch_empty.
  - intros search. destruct (filteredJobs_total jobs search Hjobs) as [l El].
    exists l. split; [done | by eapply jsFilter_sublist].
Qed.

Lemma sampleJobs_typed : Forall typedJob sampleJobs.
Proof. repeat constructor; by eexists. Qed.

Example filteredJobs_sample :
  map (get "company") <$> filteredJobs sampleJobs "acme"
  = Some [Str "Acme Corp"; Str "Globex"].
Proof. vm_compute; reflexivity. Qed.

Lemma C1_witness :
  Forall typedJob sampleJobs ∧
  ∃ l, filteredJobs sampleJobs "acme" = Some l ∧
       (∀ j, j ∈ l ↔ j ∈ sampleJobs ∧ lowerMatch "acme" j) ∧
       (isAscii "acme" = true → Forall asciiFields sampleJobs →
        ∀ j, j ∈ l ↔ j ∈ sampleJobs ∧ specMatch "acme" j).
Proof.
  split; [exact sampleJobs_typed |].
  exact (C1_filteredJobs_lower_cased_substring sampleJobs "acme" sampleJobs_typed).
Defined.

(** C1, as stated, fails: the company ΚΟΣΜΟΣ contains the search string
    ΚΟΣ, letter for letter, but the filter drops the job, because
    [toLowerCase] turns the sigma that ends ΚΟΣ into a final sigma and the
    one inside ΚΟΣΜΟΣ into a plain one. *)
Lemma C1_counterexample :
  typedJob kosmosJob ∧
  specMatch "ΚΟΣ" kosmosJob ∧
  toLowerCase "ΚΟΣΜΟΣ" = "κοσμος" ∧
  toLowerCase "ΚΟΣ" = "κος" ∧
  filteredJobs [kosmosJob] "ΚΟΣ" = Some [].
Proof.
  split; [repeat split; by eexists |]. split.
  - left. exists "ΚΟΣΜΟΣ". split; [reflexivity |].
    exists "", "ΚΟΣ", "ΜΟΣ". split; [reflexivity | apply sameIgnoringCase_refl].
  - split; [vm_compute; reflexivity |].
    split; vm_compute; reflexivity.
Qed.

Example filteredJobs_accent :
  toLowerCase "École 42" = "école 42" ∧
  length <$> filteredJobs [sampleJob "École 42" "Tutor" "Paris" "APPLIED"] "école"
  = Some 1%nat.
Proof. split; vm_compute; reflexivity. Qed.

Lemma C10_witness :
  Forall typedJob sampleJobs ∧
  filteredJobs sampleJobs "" = Some sampleJobs ∧
  ∀ search, ∃ l, filteredJobs sampleJobs search = Some l ∧ sublist l sampleJobs.
Proof.
  split; [exact sampleJobs_typed |].
  exact (C10_filter_empty_identity_and_order sampleJobs sampleJobs_typed).
Defined.

(** ** The status boards *)

Lemma statusName_inj s t : statusName s = statusName t → s = t.
Proof. by destruct s, t. Qed.

Lemma boards_statuses : map board_status boards = allStatuses.
Proof. reflexivity. Qed.

Lemma boardJobs_elem_of filtered b j :
  j ∈ boardJobs filtered b ↔
  j ∈ filtered ∧ get "status" j = Str (statusName (board_status b)).
Proof.
  unfold boardJobs, onBoard. rewrite !list_elem_of_In, filter_In.
  by rewrite bool_decide_eq_true.
Qed.

Lemma allStatuses_complete s : s ∈ allStatuses.
Proof. destruct s; unfold allStatuses; set_solver. Qed.

Lemma board_status_inj b b' :
  b ∈ boards → b' ∈ boards → board_status b = board_status b' → b = b'.
Proof.
  unfold boards. rewrite !elem_of_cons, !elem_of_nil.
  intros H H' E.
  repeat (destruct H as [-> | H]; [| try done]);
    repeat (destruct H' as [-> | H']; [| try done]);
    simpl in E; done.
Qed.

Lemma board_of_status s :
  ∃ b, b ∈ boards ∧ board_status b = s ∧
       ∀ b', b' ∈ boards → board_status b' = s → b' = b.
Proof.
  pose proof (allStatuses_complete s) as Hs. rewrite <- boards_statuses in Hs.
  apply list_elem_of_fmap in Hs as (b & -> & Hb).
  exists b. split; [done |]. split; [done |].
  intros b' Hb' E. by apply board_status_inj.
Qed.

(** C2. The board of status [s] receives exactly the filtered jobs whose
    status is [s], the five boards carry the five statuses, and a filtered
    job whose status is one of the five values is on exactly one board. *)
Theorem C2_boards_partition_by_status (filtered : list obj) :
  map board_status boards = allStatuses ∧
  (∀ b j, j ∈ boardJobs filtered b ↔
          j ∈ filtered ∧ get "status" j = Str (statusName (board_status b))) ∧
  (∀ j, j ∈ filtered → validStatus j →
        ∃ b, b ∈ boards ∧ j ∈ boardJobs filtered b ∧
             ∀ b', b' ∈ boards → j ∈ boardJobs filtered b' → b' = b).
Proof.
  split; [reflexivity |]. split; [intros; apply boardJobs_elem_of |].
  intros j Hj [s Hs]. destruct (board_of_status s) as (b & Hb & Eb & Hu).
  exists b. split; [done |]. split.
  - apply boardJobs_elem_of. by rewrite Eb.
  - intros b' Hb' Hj'. apply boardJobs_elem_of in Hj' as [_ Hs'].
    apply Hu; [done |]. rewrite Hs in Hs'. injection Hs' as Hs'.
    symmetry. by apply statusName_inj.
Qed.

Example boardJobs_sample :
  map (boardJobs sampleJobs) boards = [[acmeJob]; [initechJob]; []; []; []].
Proof. reflexivity. Qed.

(** ** Running the handlers *)

Ltac run_handler :=
  cbv beta iota zeta delta
    [submitForm JobForm_handleSubmit submittedJob Dashboard_handleSubmit
     Dashboard_onClose handleLogout setupFirestore cleanup Dashboard_effect
     Dashboard_unmount mountThenUnmount docRef await detached settle now newUUID
     tick emit throw tryCatch mbind M_bind mret M_ret fmap M_fmap
     log setReads setNetwork setDb reads network db trace optGet emitted
     fst snd applied].

Lemma get_insert_eq k v (o : obj) : get k (<[k := v]> o) = v.
Proof. unfold get. by rewrite lookup_insert_eq. Qed.

Lemma get_insert_ne k k' v (o : obj) : k ≠ k' → get k' (<[k := v]> o) = get k' o.
Proof. intros H. unfold get. by rewrite lookup_insert_ne. Qed.

Ltac get_simpl :=
  repeat first
    [ rewrite get_insert_eq
    | rewrite get_insert_ne by congruence
    | rewrite lookup_insert_eq
    | rewrite lookup_insert_ne by congruence ].

Lemma drop_trace {A} (l k : list A) : drop (length l) (l ++ k) = k.
Proof. induction l as [| x l IH]; [done | exact IH]. Qed.

Lemma truthy_Str v : truthy v = true → ∃ s, v = Str s ∧ s ≠ "".
Proof. destruct v as [[| c s] |]; simpl; try done. intros _. by eexists. Qed.

Lemma orElse_Str v s : ∃ t, orElse v (Str s) = Str t.
Proof.
  unfold orElse. destruct (truthy v) eqn:E; [| by eexists].
  apply truthy_Str in E as (t & -> & _). by eexists.
Qed.

(** ** The form *)

(** C9. The record every submission hands over has a string as [notes],
    the one of the form when it is not blank and the empty string when it
    is; a form opened without a job starts with status [PENDING] and the
    empty string in every text field. *)
Theorem C9_notes_defined_and_blank_form env job formData w :
  (∃ j w' s, submittedJob env job formData w = (Ok j, w') ∧
             get "notes" j = Str s ∧
             (truthy (get "notes" formData) = true → get "notes" formData = Str s) ∧
             (truthy (get "notes" formData) = false → s = "")) ∧
  get "status" (initialFormData None) = Str "PENDING" ∧
  ∀ i : TextInput, get (inputName i) (initialFormData None) = Str "".
Proof.
  split; [| split; [reflexivity | by intros []]].
  destruct (orElse_Str (get "notes" formData) "") as [s Es].
  destruct w as [n net d tr]. run_handler.
  destruct (truthy (match job with Some j => get "id" j | None => Undefined end));
    destruct (truthy (match job with Some j => get "appliedDate" j | None => Undefined end));
    (do 2 eexists; exists s; split; [reflexivity |];
     rewrite get_insert_eq; split; [done |]; unfold orElse in Es;
     destruct (truthy (get "notes" formData)); split; congruence).
Qed.

(** C8, as the code has it. When the job being edited has a non-empty
    [id] and a non-empty [appliedDate], the submitted record carries both
    unchanged and the form generates nothing: the world is left as it
    was. *)
Theorem C8_edit_keeps_id_and_appliedDate env j formData w :
  truthy (get "id" j) = true →
  truthy (get "appliedDate" j) = true →
  ∃ r, submittedJob env (Some j) formData w = (Ok r, w) ∧
       get "id" r = get "id" j ∧
       get "appliedDate" r = get "appliedDate" j.
Proof.
  intros Hid Hdate. destruct w as [n net d tr]. run_handler.
  rewrite Hid, Hdate. eexists. split; [reflexivity |]. split.
  - by get_simpl.
  - by get_simpl.
Qed.

Lemma C8_witness :
  truthy (get "id" aliceJob) = true ∧
  truthy (get "appliedDate" aliceJob) = true ∧
  ∃ r, submittedJob sampleEnv (Some aliceJob) aliceJob freshWorld = (Ok r, freshWorld) ∧
       get "id" r = get "id" aliceJob ∧
       get "appliedDate" r = get "appliedDate" aliceJob.
Proof.
  split; [reflexivity |]. split; [reflexivity |].
  apply (C8_edit_keeps_id_and_appliedDate sampleEnv aliceJob aliceJob freshWorld);
    reflexivity.
Defined.

(** C8, as stated, fails: editing a job whose [appliedDate] is the empty
    string submits a record with a new [appliedDate], the current time. *)
Lemma C8_counterexample :
  ∃ r w', submittedJob sampleEnv (Some undatedJob) undatedJob freshWorld = (Ok r, w') ∧
          get "appliedDate" undatedJob = Str "" ∧
          get "appliedDate" r = Str (toISOString sampleEnv 0) ∧
          get "appliedDate" r ≠ get "appliedDate" undatedJob.
Proof. do 2 eexists. split; [reflexivity |]. by vm_compute. Qed.

(** ** The writes *)

Lemma addPayload_get user job t1 t2 :
  get "updatedAt" (addPayload user job t1 t2) = Str t2 ∧
  get "createdAt" (addPayload user job t1 t2) = Str t1 ∧
  get "userId" (addPayload user job t1 t2) = uidOf user ∧
  ∀ k, k ≠ "updatedAt" → k ≠ "createdAt" → k ≠ "userId" →
       addPayload user job t1 t2 !! k = job !! k.
Proof.
  unfold addPayload. split; [| split; [| split]]; try by get_simpl.
  intros k ? ? ?. by get_simpl.
Qed.

Lemma updatePayload_get user job t :
  get "updatedAt" (updatePayload user job t) = Str t ∧
  get "userId" (updatePayload user job t) = uidOf user ∧
  ∀ k, k ≠ "updatedAt" → k ≠ "userId" → updatePayload user job t !! k = job !! k.
Proof.
  unfold updatePayload. split; [| split]; try by get_simpl.
  intros k ? ?. by get_simpl.
Qed.


(** C3. Submitting a form opened without a job calls [addDoc] with a
    record whose [id] is a new reading of [crypto.randomUUID()], whose
    [appliedDate], [createdAt] and [updatedAt] are the three following
    readings of the clock; when the call is fulfilled, that record is the
    one stored under the generated document id. *)
Theorem C3_created_record_id_and_timestamps env user formData w :
  ∃ d rest,
    emitted (submitForm env user None formData) w = Called (AddDoc d) :: rest ∧
    get "id" d = Str (randomUUID env (reads w)) ∧
    get "appliedDate" d = Str (toISOString env (1 + reads w)) ∧
    get "createdAt" d = Str (toISOString env (2 + reads w)) ∧
    get "updatedAt" d = Str (toISOString env (3 + reads w)) ∧
    (fulfilled env (4 + reads w) = true →
     db w !! autoId env (4 + reads w) = None →
     db (submitForm env user None formData w).2 !! autoId env (4 + reads w) = Some d).
Proof.
  destruct w as [n net d tr]. cbn [Nat.add reads db].
  set (d0 := addPayload user
    (<["notes":=orElse (get "notes" formData) (Str "")]>
       (<["appliedDate":=Str (toISOString env (S n))]>
          (<["id":=Str (randomUUID env n)]> formData)))
    (toISOString env (S (S n))) (toISOString env (S (S (S n))))).
  assert (∃ rest,
    emitted (submitForm env user None formData)
      {| reads := n; network := net; db := d; trace := tr |}
    = Called (AddDoc d0) :: rest) as [rest E].
  { run_handler. cbn [truthy].
    destruct (fulfilled env (S (S (S (S n))))); [destruct (d !! _) |];
      cbn [trace snd]; rewrite <- !app_assoc, drop_trace; by eexists. }
  exists d0, rest. split; [done |]. subst d0. unfold addPayload.
  split; [by get_simpl |]. split; [by get_simpl |].
  split; [by get_simpl |]. split; [by get_simpl |].
  run_handler. cbn [truthy]. intros -> ->. cbn [db snd]. by get_simpl.
Qed.

Example created_record_sample :
  get "id" <$> db (submitForm sampleEnv (Some "alice") None sampleForm freshWorld).2
    !! "Zk3xAutoId" = Some (Str "0b6e5f0c-uuid").
Proof. by vm_compute. Qed.

(** ** Document references *)

Lemma includes_slash c s :
  includes (String c s) "/" = Ascii.eqb "/"%char c || includes s "/".
Proof. cbn [includes startsWith]. by rewrite andb_true_r. Qed.

Lemma splitSlash_plain s : includes s "/" = false → splitSlash s = [s].
Proof.
  induction s as [| c s IH]; [done |]. rewrite includes_slash.
  intros H. apply orb_false_iff in H as [Hc Hs].
  cbn [splitSlash]. rewrite Ascii.eqb_sym, Hc. by rewrite (IH Hs).
Qed.

Lemma includes_two_slashes s : includes s "/" = false → includes s "//" = false.
Proof.
  intros H. destruct (includes s "//") eqn:E; [| done].
  apply includes_spec in E as (pre & post & ->).
  assert (includes (String.append pre (String.append "//" post)) "/" = true)
    as H'; [| congruence].
  apply includes_spec. by exists pre, (String "/"%char post).
Qed.

(** An [id] without a slash names the document of that id. *)
Lemma docPath_plain s :
  s ≠ "" → includes s "/" = false → docPath (Str s) = Some s.
Proof.
  intros Hne Hs. unfold docPath, pathSegments.
  rewrite (includes_two_slashes s Hs), (splitSlash_plain s Hs).
  cbn [List.filter]. by destruct s.
Qed.

Lemma docPath_Str id ref : docPath id = Some ref → ∃ s, id = Str s ∧ s ≠ "".
Proof.
  destruct id as [s |]; [| done]. intros H. exists s. split; [done |].
  by intros ->.
Qed.

Example docPath_samples :
  docPath (Str "job-17") = Some "job-17" ∧
  docPath (Str "") = None ∧
  docPath Undefined = None ∧
  docPath (Str "a/b") = None ∧
  docPath (Str "a//b/c") = None ∧
  docPath (Str "a/b/c") = Some "a/b/c" ∧
  docPath (Str "/job-17/") = Some "job-17".
Proof. repeat split. Qed.

(** C4, as the code has it. With an editing job set and a submitted
    record whose [id] names a document, [updateDoc] is called on that
    document, which is the one of that id when the id is not empty and
    has no slash, with a record whose [updatedAt] is the current time and
    whose [userId] is [user?.uid]; every other property is the one of the
    submitted record. *)
Theorem C4_update_refreshes_updatedAt_and_stamps_userId env user editingJob job w ref :
  docPath (get "id" job) = Some ref →
  (∃ d rest,
     emitted (Dashboard_handleSubmit env user (Some editingJob) job) w
       = Called (UpdateDoc ref d) :: rest ∧
     get "updatedAt" d = Str (toISOString env (reads w)) ∧
     get "userId" d = uidOf user ∧
     ∀ k, k ≠ "updatedAt" → k ≠ "userId" → d !! k = job !! k) ∧
  (∀ s, get "id" job = Str s → includes s "/" = false → ref = s).
Proof.
  intros Href. split.
  - destruct w as [n net d tr]. cbn [reads].
    exists (updatePayload user job (toISOString env n)).
    assert (∃ rest,
      emitted (Dashboard_handleSubmit env user (Some editingJob) job)
        {| reads := n; network := net; db := d; trace := tr |}
      = Called (UpdateDoc ref (updatePayload user job (toISOString env n))) :: rest)
      as [rest E].
    { run_handler. rewrite Href.
      destruct (fulfilled env (S n)); [destruct (d !! ref) |];
        cbn [trace snd]; rewrite <- !app_assoc, drop_trace; by eexists. }
    exists rest. split; [done |]. apply updatePayload_get.
  - intros s Es Hs. rewrite Es in Href.
    destruct (docPath_Str _ _ Href) as (s' & [= <-] & Hne).
    rewrite (docPath_plain s Hne Hs) in Href. congruence.
Qed.

Lemma C4_witness :
  docPath (get "id" aliceJob) = Some "job-17" ∧
  (∃ d rest,
     emitted (Dashboard_handleSubmit sampleEnv (Some "alice") (Some aliceJob) aliceJob)
       freshWorld = Called (UpdateDoc "job-17" d) :: rest ∧
     get "updatedAt" d = Str (toISOString sampleEnv (reads freshWorld)) ∧
     get "userId" d = uidOf (Some "alice") ∧
     ∀ k, k ≠ "updatedAt" → k ≠ "userId" → d !! k = aliceJob !! k) ∧
  (∀ s, get "id" aliceJob = Str s → includes s "/" = false → "job-17" = s).
Proof.
  split; [reflexivity |].
  apply (C4_update_refreshes_updatedAt_and_stamps_userId
           sampleEnv (Some "alice") aliceJob aliceJob freshWorld "job-17").
  reflexivity.
Defined.

(** An [id] that names no document: the reference is refused, no call is
    made and the error toast is shown. *)
Example invalid_reference_sample :
  emitted (Dashboard_handleSubmit sampleEnv (Some "alice") (Some aliceJob)
             (<["id" := Str "a/b"]> aliceJob)) freshWorld
  = [InvalidDocRef; ConsoleError "Error saving job:"; ToastError "Error saving job"].
Proof. vm_compute; reflexivity. Qed.

(** C4, as stated, fails: when the user signed in is [bob], submitting the
    edit of a job whose [userId] is [alice] writes [bob] as [userId], a
    property other than [updatedAt] that is not the one submitted. *)
Lemma C4_counterexample :
  ∃ d rest,
    emitted (Dashboard_handleSubmit sampleEnv (Some "bob") (Some aliceJob) aliceJob)
      freshWorld = Called (UpdateDoc "job-17" d) :: rest ∧
    get "userId" aliceJob = Str "alice" ∧
    get "userId" d = Str "bob" ∧
    get "userId" d ≠ get "userId" aliceJob.
Proof. do 2 eexists. split; [by vm_compute |]. by vm_compute. Qed.

(** ** Error handling *)

Ltac emitted_events :=
  cbn [trace snd]; rewrite <- ?app_assoc, ?drop_trace; cbn [app].

Ltac handled_branch :=
  split; [by eexists _, _ | emitted_events; split; reflexivity].

Lemma setupFirestore_handled env uid w : handledLocally (setupFirestore env uid) w.
Proof.
  destruct w as [n net d tr]. unfold handledLocally. run_handler.
  destruct (fulfilled env n); [destruct (fulfilled env (S n)) |]; handled_branch.
Qed.

Lemma handleLogout_handled env w : handledLocally (handleLogout env) w.
Proof.
  destruct w as [n net d tr]. unfold handledLocally. run_handler.
  destruct (fulfilled env n); [destruct (fulfilled env (S n)) |]; handled_branch.
Qed.

Lemma Dashboard_handleSubmit_handled env user editingJob job w :
  handledLocally (Dashboard_handleSubmit env user editingJob job) w.
Proof.
  destruct w as [n net d tr]. unfold handledLocally. run_handler.
  destruct editingJob as [e |].
  - destruct (docPath (get "id" job)) as [ref |]; [| handled_branch].
    destruct (fulfilled env (S n)); [destruct (d !! _) |]; handled_branch.
  - destruct (fulfilled env (S (S n))); [destruct (d !! _) |]; handled_branch.
Qed.

(** C6. Whatever the outcome of the SDK calls, [setupFirestore],
    [Dashboard.handleSubmit] and [handleLogout] return without throwing,
    every failure in them is followed by an error toast, and no SDK call
    is made after a failure. *)
Theorem C6_failures_caught_toasted_not_retried env uid user editingJob job w :
  handledLocally (setupFirestore env uid) w ∧
  handledLocally (Dashboard_handleSubmit env user editingJob job) w ∧
  handledLocally (handleLogout env) w.
Proof.
  split; [apply setupFirestore_handled |].
  split; [apply Dashboard_handleSubmit_handled | apply handleLogout_handled].
Qed.

Example failed_write_toast :
  emitted (Dashboard_handleSubmit offlineEnv (Some "alice") (Some aliceJob) aliceJob)
    freshWorld
  = [ Called (UpdateDoc "job-17"
        (updatePayload (Some "alice") aliceJob (toISOString offlineEnv 0)));
      Failed (UpdateDoc "job-17"
        (updatePayload (Some "alice") aliceJob (toISOString offlineEnv 0)));
      ConsoleError "Error saving job:"; ToastError "Error saving job" ].
Proof. by vm_compute. Qed.

Example failed_setup_toast :
  emitted (setupFirestore offlineEnv "alice") freshWorld
  = [ Called EnableNetwork; Failed EnableNetwork;
      ConsoleError "Error setting up Firestore:"; ToastError "Error loading data" ].
Proof. reflexivity. Qed.

Example failed_logout_toast :
  emitted (handleLogout offlineEnv) freshWorld
  = [ Called DisableNetwork; Failed DisableNetwork; ToastError "Error logging out" ].
Proof. reflexivity. Qed.

(** ** Network access over the life of the Dashboard

    Each handler is run to its end before the next one starts. *)

Lemma mount_with_user env uid w :
  ∃ unsub w1 rest,
    Dashboard_effect env (Some uid) w = (Ok (Some unsub), w1) ∧
    emitted (Dashboard_effect env (Some uid)) w = Called EnableNetwork :: rest ∧
    (Called (OnSnapshot uid) ∈ rest → fulfilled env (reads w) = true) ∧
    (unsub = Some () → network w1 = true).
Proof.
  destruct w as [n net d tr]. run_handler.
  destruct (fulfilled env n); [destruct (fulfilled env (S n)) |];
    do 3 eexists; (split; [reflexivity |]);
    (split; [emitted_events; reflexivity |]); split; try done.
  rewrite !elem_of_cons, elem_of_nil. intros [? | [? | [? | []]]]; done.
Qed.

Lemma unmount_after_user_mount env unsub w :
  ∃ w', Dashboard_unmount env (Some unsub) w = (Ok (), w') ∧
        Called DisableNetwork ∈ emitted (Dashboard_unmount env (Some unsub)) w ∧
        (fulfilled env (reads w) = true → network w' = false).
Proof.
  destruct w as [n net d tr]. run_handler.
  destruct unsub as [[] |]; destruct (fulfilled env n);
    eexists; (split; [reflexivity |]);
    (split; [emitted_events; rewrite !elem_of_cons; auto |]); done.
Qed.

Lemma logout_network env w :
  ∃ w' rest, handleLogout env w = (Ok (), w') ∧
        emitted (handleLogout env) w = Called DisableNetwork :: rest ∧
        (existsb isFailure (emitted (handleLogout env) w) = false →
         network w' = false).
Proof.
  destruct w as [n net d tr]. run_handler.
  destruct (fulfilled env n); [destruct (fulfilled env (S n)) |];
    do 2 eexists; (split; [reflexivity |]);
    (split; [emitted_events; reflexivity |]); emitted_events; done.
Qed.

(** C7, as the code has it. The effect of a Dashboard with a user signed
    in calls [enableNetwork] first, subscribes only once that call is
    fulfilled, and leaves network access enabled when it has subscribed;
    the unmount of such a Dashboard calls [disableNetwork] and, when that
    call is fulfilled, leaves network access disabled; [handleLogout]
    calls [disableNetwork] first and, when it ends without a failure,
    leaves network access disabled. With no user signed in, the effect
    and the unmount do nothing. *)
Theorem C7_network_enabled_on_user_mount_disabled_on_unmount_and_logout
    env uid unsub w1 w2 w3 :
  (∃ u w' rest,
     Dashboard_effect env (Some uid) w1 = (Ok (Some u), w') ∧
     emitted (Dashboard_effect env (Some uid)) w1 = Called EnableNetwork :: rest ∧
     (Called (OnSnapshot uid) ∈ rest → fulfilled env (reads w1) = true) ∧
     (u = Some () → network w' = true)) ∧
  (∃ w', Dashboard_unmount env (Some unsub) w2 = (Ok (), w') ∧
         Called DisableNetwork ∈ emitted (Dashboard_unmount env (Some unsub)) w2 ∧
         (fulfilled env (reads w2) = true → network w' = false)) ∧
  (∃ w' rest, handleLogout env w3 = (Ok (), w') ∧
         emitted (handleLogout env) w3 = Called DisableNetwork :: rest ∧
         (existsb isFailure (emitted (handleLogout env) w3) = false →
          network w' = false)) ∧
  Dashboard_effect env None w1 = (Ok None, w1) ∧
  Dashboard_unmount env None w2 = (Ok (), w2).
Proof.
  split; [apply mount_with_user |].
  split; [apply unmount_after_user_mount |].
  split; [apply logout_network | done].
Qed.

(** C7, as stated, fails: a Dashboard mounted with no user signed in
    registers no cleanup, so its unmount makes no call and leaves network
    access enabled, as the database client has it from the start. *)
Lemma C7_counterexample :
  mountThenUnmount sampleEnv None freshWorld = (Ok (), freshWorld) ∧
  network freshWorld = true ∧
  network (mountThenUnmount sampleEnv None freshWorld).2 = true.
Proof. by vm_compute. Qed.

Example mount_unmount_sample :
  emitted (mountThenUnmount sampleEnv (Some "alice")) freshWorld
  = [Called EnableNetwork; Called (OnSnapshot "alice"); Unsubscribed;
     Called DisableNetwork] ∧
  network (mountThenUnmount sampleEnv (Some "alice") freshWorld).2 = false.
Proof. by vm_compute. Qed.

(** ** The invariant *)


(** What [Dashboard.handleSubmit] leaves in the database: nothing new, a
    new document holding the create record, or the fields of the update
    record set on an existing document. *)
Lemma Dashboard_handleSubmit_db env user editingJob job w :
  ∃ w', Dashboard_handleSubmit env user editingJob job w = (Ok (), w') ∧
    (db w' = db w ∨
     (∃ id t1 t2, db w' = <[id := addPayload user job t1 t2]> (db w)) ∨
     (∃ id old t, db w !! id = Some old ∧
        db w' = <[id := spread old (updatePayload user job t)]> (db w))).
Proof.
  destruct w as [n net d tr]. destruct editingJob as [e |].
  - destruct (docPath (get "id" job)) as [ref |] eqn:Eid;
      run_handler; rewrite Eid;
      [| eexists; split; [reflexivity |]; by left].
    destruct (fulfilled env (S n));
      [destruct (d !! ref) as [old |] eqn:Eold |];
      eexists; (split; [reflexivity |]); cbn [db]; try by left.
    right; right. by exists ref, old, (toISOString env n).
  - run_handler.
    destruct (fulfilled env (S (S n)));
      [destruct (d !! autoId env (S (S n))) eqn:Eold |];
      eexists; (split; [reflexivity |]); cbn [db]; try by left.
    right; left. by do 3 eexists.
Qed.



(** The three mechanisms of the invariant. *)



Lemma onChange_status fd e :
  match e with
  | ChangeStatus s => get "status" (onChange fd e) = Str (statusName s)
  | ChangeText _ _ => get "status" (onChange fd e) = get "status" fd
  end.
Proof. destruct e as [[] v | s]; simpl; by get_simpl. Qed.

Lemma onChange_validStatus fd e : validStatus fd → validStatus (onChange fd e).
Proof.
  intros [s Hs]. pose proof (onChange_status fd e) as H. destruct e as [i v | s'].
  - exists s. by rewrite H.
  - by exists s'.
Qed.

Lemma foldl_onChange_validStatus es fd :
  validStatus fd → validStatus (foldl onChange fd es).
Proof.
  revert fd. induction es as [| e es IH]; intros fd H; [done |].
  simpl. apply IH. by apply onChange_validStatus.
Qed.



Lemma jobOfDoc_get k id data :
  k ≠ "id" → get k (jobOfDoc (id, data)) = get k data.
Proof.
  intros H. unfold jobOfDoc, spread, get. cbn [fst snd].
  rewrite lookup_union. rewrite lookup_singleton_ne by done.
  by destruct (data !! k).
Qed.

(** The subscription yields jobs of documents of the collection whose
    [userId] is the uid asked for. *)
Lemma jobsData_elem_of d uid j :
  j ∈ jobsData d uid →
  ∃ id data, d !! id = Some data ∧ j = jobOfDoc (id, data) ∧
             get "userId" j = Str uid ∧ get "status" j = get "status" data.
Proof.
  unfold jobsData, queryDocs. intros H.
  apply list_elem_of_In, in_map_iff in H as ([id data] & <- & H).
  apply filter_In in H as [H Hu]. apply list_elem_of_In, elem_of_map_to_list in H.
  apply bool_decide_eq_true in Hu. cbn [snd] in Hu.
  exists id, data. split; [done |]. split; [done |].
  by rewrite !jobOfDoc_get.
Qed.









(** ** What a submission does to the state of the Dashboard *)

Lemma submittedJob_frame env job fd w :
  ∃ r w1, submittedJob env job fd w = (Ok r, w1) ∧
          trace w1 = trace w ∧ db w1 = db w.
Proof.
  destruct w as [n net d tr]. run_handler.
  destruct (truthy _), (truthy _); by do 2 eexists.
Qed.

Lemma Dashboard_handleSubmit_trace env user editingJob job w :
  trace (Dashboard_handleSubmit env user editingJob job w).2
  = (trace w ++ emitted (Dashboard_handleSubmit env user editingJob job) w)%list.
Proof.
  destruct w as [n net d tr]. run_handler. destruct editingJob as [e |].
  - destruct (docPath (get "id" job)) as [ref |];
      [| emitted_events; by rewrite <- ?app_assoc].
    destruct (fulfilled env (S n)); [destruct (d !! _) |];
      emitted_events; by rewrite <- ?app_assoc.
  - destruct (fulfilled env (S (S n))); [destruct (d !! _) |];
      emitted_events; by rewrite <- ?app_assoc.
Qed.

(** A submission is the form's record handed to [Dashboard.handleSubmit],
    followed by the [onClose] of the form. *)
Lemma submitForm_run env user editingJob fd w :
  ∃ r w1 w2,
    submittedJob env editingJob fd w = (Ok r, w1) ∧
    trace w1 = trace w ∧ db w1 = db w ∧
    Dashboard_handleSubmit env user editingJob r w1 = (Ok (), w2) ∧
    submitForm env user editingJob fd w
    = (Ok (), log (SetEditingJob None) (log (SetShowForm false) w2)).
Proof.
  destruct (submittedJob_frame env editingJob fd w) as (r & w1 & E1 & T1 & D1).
  destruct (Dashboard_handleSubmit_db env user editingJob r w1) as (w2 & E2 & _).
  exists r, w1, w2. repeat (split; [done |]).
  unfold submitForm, JobForm_handleSubmit, mbind, M_bind. by rewrite E1, E2.
Qed.

Lemma submitForm_emitted env user editingJob fd w :
  ∃ r w1,
    submittedJob env editingJob fd w = (Ok r, w1) ∧
    db w1 = db w ∧
    emitted (submitForm env user editingJob fd) w
    = (emitted (Dashboard_handleSubmit env user editingJob r) w1
       ++ [SetShowForm false; SetEditingJob None])%list ∧
    db (submitForm env user editingJob fd w).2
    = db (Dashboard_handleSubmit env user editingJob r w1).2.
Proof.
  destruct (submitForm_run env user editingJob fd w)
    as (r & w1 & w2 & E1 & T1 & D1 & E2 & E).
  exists r, w1. split; [done |]. split; [done |].
  pose proof (Dashboard_handleSubmit_trace env user editingJob r w1) as T2.
  rewrite E2 in T2. cbn [snd] in T2.
  unfold emitted at 1. rewrite E, E2. cbn [snd log trace db].
  by rewrite T2, T1, <- !app_assoc, drop_trace.
Qed.

Lemma afterEvents_frame st evs :
  st_jobs (afterEvents st evs) = st_jobs st ∧
  st_search (afterEvents st evs) = st_search st.
Proof.
  unfold afterEvents. revert st.
  induction evs as [| e evs IH]; intros st; [done |].
  simpl. destruct (IH (setState st e)) as [-> ->]. by destruct e.
Qed.




(** ** The invariant of the whole *)











Example sampleRun_jobs :
  (λ s, map (get "userId") (st_jobs (sys_ui s)))
    <$> run sampleEnv sampleRun (startSystem freshWorld)
  = Some [Str "alice"].
Proof. vm_compute; reflexivity. Qed.


Example createdWorld_jobs :
  map (get "userId") (jobsData (db createdWorld) "alice") = [Str "alice"] ∧
  jobsData (db createdWorld) "bob" = [].
Proof. by vm_compute. Qed.

(** The job the subscription yields for a record this application added
    carries the record's own [id] property, not the document id, so the
    update of its edit names a document that does not exist and is
    rejected. *)
Example edit_of_added_job_is_rejected :
  length (jobsData (db createdWorld) "alice") = 1%nat ∧
  get "id" addedJob = Str "0b6e5f0c-uuid" ∧
  db createdWorld !! "0b6e5f0c-uuid" = None ∧
  bool_decide (is_Some (db createdWorld !! "Zk3xAutoId")) = true ∧
  existsb isFailure
    (emitted (submitForm sampleEnv (Some "alice") (Some addedJob)
                (formAfter (Some addedJob) [ChangeStatus REJECTED])) createdWorld)
  = true.
Proof.
  split; [vm_compute; reflexivity |]. split; [vm_compute; reflexivity |].
  split; [vm_compute; reflexivity |]. split; vm_compute; reflexivity.
Qed.

(** * Further properties of the code *)

(** ** The search filter: the case of the query, narrowing, repetition *)

Lemma matchesSearch_query_case s s' j :
  toLowerCase s = toLowerCase s' → matchesSearch s j = matchesSearch s' j.
Proof. intros E. unfold matchesSearch. by rewrite E. Qed.

Lemma jsFilter_ext {A} (f g : A → option bool) l :
  (∀ x, f x = g x) → jsFilter f l = jsFilter g l.
Proof.
  intros E. induction l as [| x l IH]; simpl; [done |]. by rewrite E, IH.
Qed.

(** X1. Two ASCII search strings that differ only in the case of their
    letters give the same filtered list, on any list of jobs. *)
Theorem X1_search_ignores_case_of_query jobs s s' :
  isAscii s = true →
  sameIgnoringCase s s' → filteredJobs jobs s = filteredJobs jobs s'.
Proof.
  intros Hs H. pose proof (sameIgnoringCase_ascii s s' H Hs) as Hs'.
  apply sameIgnoringCase_asciiLowerCase in H.
  apply jsFilter_ext. intros j. apply matchesSearch_query_case.
  by rewrite (toLowerCase_ascii s Hs), (toLowerCase_ascii s' Hs').
Qed.

Lemma sameIgnoringCase_sample : sameIgnoringCase "AcMe" "acme".
Proof. apply sameIgnoringCase_asciiLowerCase. reflexivity. Qed.

Lemma X1_witness :
  isAscii "AcMe" = true ∧
  sameIgnoringCase "AcMe" "acme" ∧
  filteredJobs sampleJobs "AcMe" = filteredJobs sampleJobs "acme".
Proof.
  split; [reflexivity |]. split; [exact sameIgnoringCase_sample |].
  exact (X1_search_ignores_case_of_query sampleJobs "AcMe" "acme"
           eq_refl sameIgnoringCase_sample).
Defined.

(** Outside ASCII the case of the query can matter: a capital sigma that
    ends the query is lower-cased to a final sigma, one that a letter
    follows is not. *)
Example final_sigma_query :
  toLowerCase "ΑΣ" = "ας" ∧
  toLowerCase "ασ" = "ασ" ∧
  length <$> filteredJobs [sampleJob "ΑΣΑ" "Clerk" "Patras" "APPLIED"] "ΑΣ" = Some 0%nat ∧
  length <$> filteredJobs [sampleJob "ΑΣΑ" "Clerk" "Patras" "APPLIED"] "ασ" = Some 1%nat.
Proof. repeat split; vm_compute; reflexivity. Qed.

Lemma string_append_assoc a b c :
  String.append (String.append a b) c = String.append a (String.append b c).
Proof.
  induction a as [| x a IH]; [done |].
  change (String x (String.append (String.append a b) c)
          = String x (String.append a (String.append b c))).
  by rewrite IH.
Qed.

Lemma includes_trans a b c :
  includes a b = true → includes b c = true → includes a c = true.
Proof.
  rewrite !includes_spec. intros (p1 & q1 & ->) (p2 & q2 & ->).
  exists (String.append p1 p2), (String.append q2 q1).
  by rewrite !string_append_assoc.
Qed.

Lemma containsIgnoringCase_ascii field search :
  containsIgnoringCase field search → isAscii field = true → isAscii search = true.
Proof.
  intros (pre & mid & post & -> & Hmid). rewrite !isAscii_append.
  intros H. apply andb_true_iff in H as [_ H]. apply andb_true_iff in H as [H _].
  by apply (sameIgnoringCase_ascii mid search).
Qed.

Lemma matchesSearch_narrow s s' j :
  isAscii s' = true → containsIgnoringCase s' s →
  matchesSearch s' j = Some true → matchesSearch s j = Some true.
Proof.
  intros Ha Hs. pose proof (containsIgnoringCase_ascii s' s Hs Ha) as Ha'.
  apply (includes_containsIgnoringCase s' s Ha Ha') in Hs.
  unfold matchesSearch.
  destruct (strField "company" j) as [c |]; simpl; [| done].
  destruct (includes (toLowerCase c) (toLowerCase s')) eqn:Ec.
  { intros _. by rewrite (includes_trans _ _ _ Ec Hs). }
  destruct (includes (toLowerCase c) (toLowerCase s)); [done |].
  destruct (strField "position" j) as [p |]; simpl; [| done].
  destruct (includes (toLowerCase p) (toLowerCase s')) eqn:Ep.
  { intros _. by rewrite (includes_trans _ _ _ Ep Hs). }
  destruct (includes (toLowerCase p) (toLowerCase s)); [done |].
  destruct (strField "location" j) as [l |]; simpl; [| done].
  intros [= El]. by rewrite (includes_trans _ _ _ El Hs).
Qed.

Lemma jsFilter_sublist_mono {A} (f g : A → option bool) l lf lg :
  (∀ x, f x = Some true → g x = Some true) →
  jsFilter f l = Some lf → jsFilter g l = Some lg → sublist lf lg.
Proof.
  intros Hfg. revert lf lg.
  induction l as [| x l IH]; simpl; intros lf lg Ef Eg.
  - injection Ef as <-. apply sublist_nil_l.
  - destruct (f x) as [[|] |] eqn:Fx; [| | done].
    + rewrite (Hfg x Fx) in Eg.
      destruct (jsFilter f l) as [rf |]; [| done].
      destruct (jsFilter g l) as [rg |]; [| done].
      simpl in Ef, Eg. injection Ef as <-. injection Eg as <-.
      constructor. by apply IH.
    + destruct (g x) as [[|] |]; [| | done].
      * destruct (jsFilter g l) as [rg |]; [| done]. simpl in Eg.
        injection Eg as <-. constructor. by apply IH.
      * by apply IH.
Qed.

(** X2. Typing more narrows the result: when the search string [s'] is
    an ASCII string and the search string [s] occurs in it up to case,
    the jobs kept for [s'] are, in order, among the jobs kept for [s]. *)
Theorem X2_longer_search_narrows jobs s s' :
  Forall typedJob jobs →
  isAscii s' = true →
  containsIgnoringCase s' s →
  ∃ l l', filteredJobs jobs s = Some l ∧ filteredJobs jobs s' = Some l' ∧
          sublist l' l.
Proof.
  intros Hjobs Ha Hs.
  destruct (filteredJobs_total jobs s Hjobs) as [l El].
  destruct (filteredJobs_total jobs s' Hjobs) as [l' El'].
  exists l, l'. split; [done |]. split; [done |].
  eapply (jsFilter_sublist_mono (matchesSearch s') (matchesSearch s));
    [| exact El' | exact El].
  intros j. by apply matchesSearch_narrow.
Qed.

Lemma containsIgnoringCase_sample : containsIgnoringCase "Acme C" "acme".
Proof. apply includes_asciiLowerCase. reflexivity. Qed.

Lemma X2_witness :
  Forall typedJob sampleJobs ∧ isAscii "Acme C" = true ∧
  containsIgnoringCase "Acme C" "acme" ∧
  ∃ l l', filteredJobs sampleJobs "acme" = Some l ∧
          filteredJobs sampleJobs "Acme C" = Some l' ∧ sublist l' l.
Proof.
  split; [exact sampleJobs_typed |]. split; [reflexivity |].
  split; [exact containsIgnoringCase_sample |].
  exact (X2_longer_search_narrows sampleJobs "acme" "Acme C"
           sampleJobs_typed eq_refl containsIgnoringCase_sample).
Defined.

(** Outside ASCII typing more can widen the result: the job ΚΟΣΜΟΣ is
    kept for the search ΚΟΣΜΟΣ and dropped for the search ΚΟΣ. *)
Example longer_search_widens :
  length <$> filteredJobs [kosmosJob] "ΚΟΣΜΟΣ" = Some 1%nat ∧
  length <$> filteredJobs [kosmosJob] "ΚΟΣ" = Some 0%nat.
Proof. split; vm_compute; reflexivity. Qed.

Lemma jsFilter_kept {A} (f : A → option bool) l r :
  jsFilter f l = Some r → Forall (λ x, f x = Some true) r.
Proof.
  intros E. apply Forall_forall. intros x Hx.
  by apply (jsFilter_elem_of f l r E x) in Hx as [_ ?].
Qed.

(** X3. Filtering what the filter returned, with the same search string,
    returns it unchanged. *)
Theorem X3_filter_idempotent jobs search l :
  filteredJobs jobs search = Some l → filteredJobs l search = Some l.
Proof. intros E. apply jsFilter_all. by eapply jsFilter_kept. Qed.

Lemma X3_witness :
  filteredJobs sampleJobs "acme" = Some [acmeJob; globexJob] ∧
  filteredJobs [acmeJob; globexJob] "acme" = Some [acmeJob; globexJob].
Proof.
  split; [reflexivity |].
  apply (X3_filter_idempotent sampleJobs "acme"). reflexivity.
Defined.

(** ** The search filter: jobs that are not of type [Job] *)

Lemma jsFilter_None {A} (f : A → option bool) l :
  jsFilter f l = None ↔ Exists (λ x, f x = None) l.
Proof.
  induction l as [| x l IH]; simpl.
  - split; [done | by intros H; inversion H].
  - rewrite Exists_cons, <- IH.
    destruct (f x) as [[|] |]; [| | by intuition].
    + destruct (jsFilter f l); simpl; split; try done.
      * intros [? | ?]; done.
      * auto.
    + split; [auto | intros [? | ?]; done].
Qed.

(** X4. The filter throws exactly when its callback throws on one of the
    jobs; the callback throws on every job whose [company] is not a
    string, whatever the search; and a job whose [company] matches is kept
    without its [position] or [location] being read. *)
Theorem X4_filter_throws_on_untyped_job jobs search :
  (filteredJobs jobs search = None ↔
   Exists (λ j, matchesSearch search j = None) jobs) ∧
  (∀ j, strField "company" j = None → matchesSearch search j = None) ∧
  (∀ j c, strField "company" j = Some c →
          includes (toLowerCase c) (toLowerCase search) = true →
          matchesSearch search j = Some true).
Proof.
  split; [apply jsFilter_None |]. split.
  - intros j H. unfold matchesSearch. by rewrite H.
  - intros j c Hc Hi. unfold matchesSearch. rewrite Hc. simpl. by rewrite Hi.
Qed.

Example filter_throws_sample :
  filteredJobs [acmeJob; delete "company" initechJob] "z" = None ∧
  length <$> filteredJobs [delete "position" acmeJob] "acme" = Some 1%nat ∧
  filteredJobs [delete "position" acmeJob] "z" = None.
Proof.
  split; [vm_compute; reflexivity |]. split; vm_compute; reflexivity.
Qed.

(** ** The boards: every job with a valid status once, the others nowhere *)

Lemma onBoard_validStatus b j : onBoard b j = true → validStatus j.
Proof.
  unfold onBoard. rewrite bool_decide_eq_true. intros H.
  by exists (board_status b).
Qed.

Lemma hasBoard_validStatus j : hasBoard j = true ↔ validStatus j.
Proof.
  unfold hasBoard. rewrite existsb_exists. split.
  - intros (b & _ & Hb). by eapply onBoard_validStatus.
  - intros [s Hs]. destruct (board_of_status s) as (b & Hb & Eb & _).
    exists b. split; [by apply list_elem_of_In |].
    unfold onBoard. apply bool_decide_eq_true. by rewrite Eb.
Qed.

Lemma onBoard_unique b b' j :
  b ∈ boards → b' ∈ boards → onBoard b j = true → onBoard b' j = true → b = b'.
Proof.
  unfold onBoard. rewrite !bool_decide_eq_true. intros Hb Hb' E E'.
  apply board_status_inj; [done | done |].
  apply statusName_inj. congruence.
Qed.

Lemma boardJobs_cons b x l :
  boardJobs (x :: l) b = if onBoard b x then x :: boardJobs l b else boardJobs l b.
Proof. reflexivity. Qed.

Lemma boards_concat_cons x l :
  concat (map (boardJobs (x :: l)) boards)
  ≡ₚ (if hasBoard x then [x] else []) ++ concat (map (boardJobs l) boards).
Proof.
  unfold hasBoard, boards. cbn [map concat existsb]. rewrite !boardJobs_cons.
  set (b1 := {| board_status := PENDING |}).
  set (b2 := {| board_status := APPLIED |}).
  set (b3 := {| board_status := INTERVIEWING |}).
  set (b4 := {| board_status := ACCEPTED |}).
  set (b5 := {| board_status := REJECTED |}).
  assert (∀ b b', b ∈ boards → b' ∈ boards → b ≠ b' →
            onBoard b x = true → onBoard b' x = true → False) as D.
  { intros b b' Hb Hb' Hne E E'. apply Hne. by eapply onBoard_unique. }
  assert (b1 ∈ boards ∧ b2 ∈ boards ∧ b3 ∈ boards ∧ b4 ∈ boards ∧ b5 ∈ boards)
    as (I1 & I2 & I3 & I4 & I5)
    by (unfold boards; rewrite !elem_of_cons; tauto).
  destruct (onBoard b1 x) eqn:E1, (onBoard b2 x) eqn:E2, (onBoard b3 x) eqn:E3,
           (onBoard b4 x) eqn:E4, (onBoard b5 x) eqn:E5;
    try (exfalso;
         first [ by apply (D b1 b2) | by apply (D b1 b3) | by apply (D b1 b4)
               | by apply (D b1 b5) | by apply (D b2 b3) | by apply (D b2 b4)
               | by apply (D b2 b5) | by apply (D b3 b4) | by apply (D b3 b5)
               | by apply (D b4 b5) ]);
    cbn [orb app]; by rewrite <- ?Permutation_middle.
Qed.

(** X5. Put together, the five boards hold the filtered jobs that have one
    of the five statuses, each as often as it occurs in the filtered list,
    and no others: a job with any other status is shown on no board. *)
Theorem X5_boards_hold_valid_jobs_once (filtered : list obj) :
  concat (map (boardJobs filtered) boards) ≡ₚ List.filter hasBoard filtered ∧
  (∀ j, hasBoard j = true ↔ validStatus j) ∧
  (∀ b j, j ∈ boardJobs filtered b → validStatus j).
Proof.
  split; [| split; [apply hasBoard_validStatus |]].
  - induction filtered as [| x l IH]; [done |].
    rewrite boards_concat_cons. cbn [List.filter].
    destruct (hasBoard x); cbn [app]; by rewrite IH.
  - intros b j Hj. apply boardJobs_elem_of in Hj as [_ Hs].
    by exists (board_status b).
Qed.

Example boards_hide_other_status :
  hasBoard globexJob = false ∧
  map (get "company") (concat (map (boardJobs sampleJobs) boards))
  = [Str "Acme Corp"; Str "Initech"].
Proof. split; vm_compute; reflexivity. Qed.

(** ** The boards and the search commute *)

Lemma matchesSearch_filter_board search b jobs l :
  jsFilter (matchesSearch search) jobs = Some l →
  jsFilter (matchesSearch search) (List.filter (onBoard b) jobs)
  = Some (List.filter (onBoard b) l).
Proof.
  revert l. induction jobs as [| x jobs IH]; simpl; intros l E.
  - by injection E as <-.
  - destruct (matchesSearch search x) as [[|] |] eqn:Mx; [| | done].
    + destruct (jsFilter (matchesSearch search) jobs) as [r |]; [| done].
      simpl in E. injection E as <-. simpl.
      destruct (onBoard b x); simpl; [rewrite Mx |]; by rewrite (IH r eq_refl).
    + destruct (onBoard b x); simpl; [rewrite Mx |]; by apply IH.
Qed.

(** X6. Searching the jobs of one board gives the board of the searched
    jobs: the column a board shows is the same whether the search or the
    status is applied first. *)
Theorem X6_board_and_search_commute jobs search l b :
  filteredJobs jobs search = Some l →
  filteredJobs (boardJobs jobs b) search = Some (boardJobs l b).
Proof. apply matchesSearch_filter_board. Qed.

Lemma X6_witness :
  filteredJobs sampleJobs "acme" = Some [acmeJob; globexJob] ∧
  ∀ b, filteredJobs (boardJobs sampleJobs b) "acme"
       = Some (boardJobs [acmeJob; globexJob] b).
Proof.
  split; [reflexivity |]. intros b.
  apply (X6_board_and_search_commute sampleJobs "acme"). reflexivity.
Defined.

(** ** The form: what a sequence of changes leaves in [formData] *)

Lemma onChange_eventKey fd e : onChange fd e = <[eventKey e := eventValue e]> fd.
Proof. by destruct e. Qed.

Lemma foldl_onChange_untouched k es fd :
  Forall (λ e, eventKey e ≠ k) es → foldl onChange fd es !! k = fd !! k.
Proof.
  revert fd. induction es as [| e es IH]; intros fd H; [done |].
  apply Forall_cons in H as [He Hes]. simpl. rewrite (IH _ Hes).
  rewrite onChange_eventKey. by rewrite lookup_insert_ne.
Qed.

Lemma foldl_onChange_app fd es es' :
  foldl onChange fd (es ++ es') = foldl onChange (foldl onChange fd es) es'.
Proof. apply foldl_app. Qed.

(** X7. In the form data, a property has the value of the last change
    made to it, and a property no change was made to has its initial
    value: each input sets its own property only. *)
Theorem X7_form_data_last_change_wins job es e es' k :
  Forall (λ e', eventKey e' ≠ eventKey e) es' →
  (Forall (λ e', eventKey e' ≠ k) (es ++ e :: es') →
   formAfter job (es ++ e :: es') !! k = initialFormData job !! k) ∧
  get (eventKey e) (formAfter job (es ++ e :: es')) = eventValue e.
Proof.
  intros Hlast. unfold formAfter. split.
  - apply foldl_onChange_untouched.
  - rewrite foldl_onChange_app. simpl. unfold get.
    rewrite (foldl_onChange_untouched _ _ _ Hlast), onChange_eventKey.
    by rewrite lookup_insert_eq.
Qed.

Lemma X7_witness :
  Forall (λ e', eventKey e' ≠ eventKey (ChangeText Company "Acme Corp"))
    [ChangeText Position "Engineer"; ChangeStatus APPLIED] ∧
  (Forall (λ e', eventKey e' ≠ "url")
     ([ChangeText Company "Acme"] ++
      ChangeText Company "Acme Corp" ::
      [ChangeText Position "Engineer"; ChangeStatus APPLIED]) →
   formAfter None
     ([ChangeText Company "Acme"] ++
      ChangeText Company "Acme Corp" ::
      [ChangeText Position "Engineer"; ChangeStatus APPLIED]) !! "url"
   = initialFormData None !! "url") ∧
  get (eventKey (ChangeText Company "Acme Corp"))
    (formAfter None
       ([ChangeText Company "Acme"] ++
        ChangeText Company "Acme Corp" ::
        [ChangeText Position "Engineer"; ChangeStatus APPLIED]))
  = eventValue (ChangeText Company "Acme Corp").
Proof.
  assert (Forall (λ e', eventKey e' ≠ eventKey (ChangeText Company "Acme Corp"))
            [ChangeText Position "Engineer"; ChangeStatus APPLIED]) as H
    by (repeat constructor; done).
  split; [exact H |].
  exact (X7_form_data_last_change_wins None [ChangeText Company "Acme"]
           (ChangeText Company "Acme Corp")
           [ChangeText Position "Engineer"; ChangeStatus APPLIED] "url" H).
Defined.

(** ** The form: what a submission changes *)

(** X8. The record the form submits differs from the form data in [id],
    [appliedDate] and [notes] at most; its [id] is the one of the job
    edited when that is a non-empty string and a new UUID otherwise,
    whatever [id] the form data holds; and building it changes neither the
    database, nor network access, nor the trace. *)
Theorem X8_submission_changes_three_properties env job formData w :
  ∃ r w', submittedJob env job formData w = (Ok r, w') ∧
    (∀ k, k ≠ "id" → k ≠ "appliedDate" → k ≠ "notes" → r !! k = formData !! k) ∧
    get "id" r = generatedId env job w ∧
    db w' = db w ∧ network w' = network w ∧ trace w' = trace w.
Proof.
  destruct w as [n net d tr]. unfold generatedId. run_handler.
  destruct (truthy (match job with Some j => get "id" j | None => Undefined end));
    destruct (truthy (match job with Some j => get "appliedDate" j | None => Undefined end));
    do 2 eexists; (split; [reflexivity |]);
    (split; [intros k ? ? ?; by get_simpl |]);
    (split; [by get_simpl |]); done.
Qed.

(** ** The form: the value a date input shows *)

Lemma beforeT_prefix s : ∃ rest, s = String.append (beforeT s) rest.
Proof.
  induction s as [| c s [rest IH]]; simpl; [by exists "" |].
  destruct (Ascii.eqb c "T"); [by eexists |].
  exists rest. change (String c s = String c (String.append (beforeT s) rest)).
  by rewrite <- IH.
Qed.

Lemma includes_T_cons c s :
  includes (String c s) "T" = Ascii.eqb c "T" || includes s "T".
Proof.
  cbn [includes startsWith]. rewrite andb_true_r.
  by rewrite (Ascii.eqb_sym "T" c).
Qed.

Lemma beforeT_no_T s : includes (beforeT s) "T" = false.
Proof.
  induction s as [| c s IH]; simpl; [done |].
  destruct (Ascii.eqb c "T") eqn:E; [done |].
  by rewrite includes_T_cons, E, IH.
Qed.

Lemma beforeT_id s : includes s "T" = false → beforeT s = s.
Proof.
  induction s as [| c s IH]; [done |].
  rewrite includes_T_cons. intros H. apply orb_false_iff in H as [E H].
  simpl. by rewrite E, (IH H).
Qed.

(** X9. A date input shows what precedes the first [T] of the property:
    a prefix of it without a [T], the property itself when it has no [T],
    and [undefined], without an error, when the property is absent; so
    a date typed into the input is shown as typed. *)
Theorem X9_date_input_shows_date_part (formData : obj) k s v :
  (get k formData = Str s →
   ∃ shown rest, dateInputValue k formData = Str shown ∧
                 s = String.append shown rest ∧ includes shown "T" = false ∧
                 (includes s "T" = false → shown = s)) ∧
  (formData !! k = None → dateInputValue k formData = Undefined) ∧
  (includes v "T" = false →
   dateInputValue "applicationDeadline"
     (onChange formData (ChangeText ApplicationDeadline v)) = Str v ∧
   dateInputValue "interviewDate"
     (onChange formData (ChangeText InterviewDate v)) = Str v).
Proof.
  split; [| split].
  - intros E. unfold dateInputValue. rewrite E.
    destruct (beforeT_prefix s) as [rest Hrest].
    exists (beforeT s), rest. split; [done |]. split; [done |].
    split; [apply beforeT_no_T | apply beforeT_id].
  - intros E. unfold dateInputValue, get. by rewrite E.
  - intros Hv. unfold dateInputValue. simpl. rewrite !get_insert_eq.
    by rewrite (beforeT_id v Hv).
Qed.

Example date_input_sample :
  dateInputValue "interviewDate"
    {[ "interviewDate" := Str "2024-05-01T10:00:00.000Z" ]} = Str "2024-05-01".
Proof. reflexivity. Qed.

(** ** The writes: toasts, failures and the documents already stored *)

Ltac submit_branch :=
  solve [emitted_events; cbn [db snd];
         split; [reflexivity | split; [reflexivity | done]]].

(** X10. [Dashboard.handleSubmit] shows exactly one toast: the success
    toast when nothing in it failed, the error toast otherwise; and when
    something failed the database is as it was. *)
Theorem X10_one_toast_per_submit env user editingJob job w :
  length (List.filter isToast
            (emitted (Dashboard_handleSubmit env user editingJob job) w)) = 1 ∧
  existsb isToastSuccess (emitted (Dashboard_handleSubmit env user editingJob job) w)
  = negb (existsb isFailure (emitted (Dashboard_handleSubmit env user editingJob job) w)) ∧
  (existsb isFailure (emitted (Dashboard_handleSubmit env user editingJob job) w) = true →
   db (Dashboard_handleSubmit env user editingJob job w).2 = db w).
Proof.
  destruct w as [n net d tr]. run_handler. destruct editingJob as [e |].
  - destruct (docPath (get "id" job)) as [ref |]; [| submit_branch].
    destruct (fulfilled env (S n)); [destruct (d !! _) |]; submit_branch.
  - destruct (fulfilled env (S (S n))); [destruct (d !! _) |]; submit_branch.
Qed.

Lemma Dashboard_handleSubmit_failed_db env user editingJob job w :
  existsb isFailure (emitted (Dashboard_handleSubmit env user editingJob job) w) = true →
  db (Dashboard_handleSubmit env user editingJob job w).2 = db w.
Proof.
  destruct w as [n net d tr]. run_handler. destruct editingJob as [e |].
  - destruct (docPath (get "id" job)) as [ref |];
      [| emitted_events; cbn [db snd]; done].
    destruct (fulfilled env (S n)); [destruct (d !! _) |];
      emitted_events; cbn [db snd]; done.
  - destruct (fulfilled env (S (S n))); [destruct (d !! _) |];
      emitted_events; cbn [db snd]; done.
Qed.

(** X11. After a submission the form is closed and no job is being
    edited, whether the write succeeded or not; the jobs and the search of
    the Dashboard are untouched; and when the write failed the database is
    as it was and an error toast is shown. *)
Theorem X11_form_closes_whatever_the_outcome env user editingJob formData w st :
  renderedForm (afterEvents st (emitted (submitForm env user editingJob formData) w))
  = None ∧
  st_editingJob (afterEvents st (emitted (submitForm env user editingJob formData) w))
  = None ∧
  st_jobs (afterEvents st (emitted (submitForm env user editingJob formData) w))
  = st_jobs st ∧
  st_search (afterEvents st (emitted (submitForm env user editingJob formData) w))
  = st_search st ∧
  (existsb isFailure (emitted (submitForm env user editingJob formData) w) = true →
   db (submitForm env user editingJob formData w).2 = db w ∧
   existsb isToastError (emitted (submitForm env user editingJob formData) w) = true).
Proof.
  destruct (submitForm_emitted env user editingJob formData w)
    as (r & w1 & E1 & D1 & -> & ->).
  destruct (afterEvents_frame st
    (emitted (Dashboard_handleSubmit env user editingJob r) w1
     ++ [SetShowForm false; SetEditingJob None])%list) as [Hj Hs].
  split; [| split; [| split; [done | split; [done |]]]].
  - unfold afterEvents, renderedForm. by rewrite foldl_app.
  - unfold afterEvents. by rewrite foldl_app.
  - rewrite !existsb_app. cbn [existsb isFailure isToastError].
    rewrite !orb_false_r. intros F.
    split; [by rewrite (Dashboard_handleSubmit_failed_db env user editingJob r w1 F) |].
    destruct (Dashboard_handleSubmit_handled env user editingJob r w1)
      as (_ & T & _).
    clear -F T.
    induction (emitted (Dashboard_handleSubmit env user editingJob r) w1)
      as [| e evs IH]; [done |].
    cbn [existsb failuresToasted] in *.
    apply andb_true_iff in T as [T1 T2].
    destruct (isFailure e); cbn [orb] in *.
    + rewrite T1. apply orb_true_r.
    + rewrite (IH F T2). apply orb_true_r.
Qed.

Example failed_submit_closes_form :
  renderedForm
    (afterEvents (onUi initialDashboard ClickAdd)
       (emitted (submitForm offlineEnv (Some "alice") None sampleForm) freshWorld))
  = None ∧
  db (submitForm offlineEnv (Some "alice") None sampleForm freshWorld).2 = ∅.
Proof. split; vm_compute; reflexivity. Qed.

Lemma Dashboard_handleSubmit_db_cases env user editingJob job w :
  db (Dashboard_handleSubmit env user editingJob job w).2 = db w ∨
  (editingJob = None ∧
   ∃ id t1 t2, db w !! id = None ∧
     db (Dashboard_handleSubmit env user editingJob job w).2
     = <[id := addPayload user job t1 t2]> (db w)) ∨
  (is_Some editingJob ∧
   ∃ id old t, db w !! id = Some old ∧
     db (Dashboard_handleSubmit env user editingJob job w).2
     = <[id := spread old (updatePayload user job t)]> (db w)).
Proof.
  destruct w as [n net d tr]. destruct editingJob as [e |].
  - destruct (docPath (get "id" job)) as [ref |] eqn:Eid;
      run_handler; rewrite Eid; [| by left].
    destruct (fulfilled env (S n));
      [destruct (d !! ref) as [old |] eqn:Eold |]; cbn [db snd];
      try by left.
    right; right. split; [by eexists |].
    by exists ref, old, (toISOString env n).
  - run_handler.
    destruct (fulfilled env (S (S n)));
      [destruct (d !! autoId env (S (S n))) eqn:Eold |]; cbn [db snd];
      try by left.
    right; left. split; [done |]. by do 3 eexists.
Qed.

(** X12. A submission deletes no document and removes no property from
    one: every document stored before is stored after, with at least the
    properties it had; adding a job leaves every stored document exactly
    as it was. *)
Theorem X12_submission_keeps_stored_documents env user editingJob formData w id old :
  db w !! id = Some old →
  ∃ new, db (submitForm env user editingJob formData w).2 !! id = Some new ∧
         dom old ⊆ dom new ∧
         (editingJob = None → new = old).
Proof.
  intros Hold.
  destruct (submitForm_emitted env user editingJob formData w)
    as (r & w1 & _ & D1 & _ & ->).
  destruct (Dashboard_handleSubmit_db_cases env user editingJob r w1)
    as [-> | [(_ & id' & t1 & t2 & Hfresh & ->) |
              ([e ->] & id' & old' & t & Hold' & ->)]];
    rewrite D1 in *.
  - by exists old.
  - exists old. by rewrite lookup_insert_ne by congruence.
  - destruct (decide (id' = id)) as [-> | Hne].
    + exists (spread old' (updatePayload user r t)).
      rewrite lookup_insert_eq. split; [done |]. split; [| done].
      assert (old' = old) as -> by congruence.
      unfold spread. rewrite dom_union. apply union_subseteq_r.
    + exists old. by rewrite lookup_insert_ne.
Qed.

Lemma X12_witness :
  db aliceWorld !! "doc-17" = Some aliceJob ∧
  ∃ new, db (submitForm sampleEnv (Some "bob") None sampleForm aliceWorld).2
           !! "doc-17" = Some new ∧
         dom aliceJob ⊆ dom new ∧
         ((None : option obj) = None → new = aliceJob).
Proof.
  split; [apply lookup_singleton_eq |].
  apply (X12_submission_keeps_stored_documents sampleEnv (Some "bob") None
           sampleForm aliceWorld "doc-17" aliceJob).
  apply lookup_singleton_eq.
Defined.

(** ** Logging out, step by step *)

(** X13. [handleLogout] calls [logout] only once [disableNetwork] is
    fulfilled and navigates only once both are; a rejected
    [disableNetwork] leaves network access as it was, and a fulfilled one
    leaves it disabled even when [logout] is then rejected and the user
    stays on the Dashboard. *)
Theorem X13_logout_steps env w :
  (Called AuthLogout ∈ emitted (handleLogout env) w ↔
   fulfilled env (reads w) = true) ∧
  (Navigate "/" ∈ emitted (handleLogout env) w ↔
   fulfilled env (reads w) = true ∧ fulfilled env (S (reads w)) = true) ∧
  (fulfilled env (reads w) = false → network (handleLogout env w).2 = network w) ∧
  (fulfilled env (reads w) = true → network (handleLogout env w).2 = false).
Proof.
  destruct w as [n net d tr]. run_handler.
  destruct (fulfilled env n); [destruct (fulfilled env (S n)) |];
    emitted_events; rewrite !elem_of_cons, !elem_of_nil; cbn [network snd];
    intuition congruence.
Qed.

(** ** Mounting and unmounting with a user signed in *)

(** X14. When a Dashboard with a user signed in is mounted and then
    unmounted, the listener is unsubscribed exactly when it was
    subscribed, that is when [enableNetwork] and [onSnapshot] were both
    fulfilled, and [disableNetwork] is called in every case, also after a
    failed setup; nothing is thrown. *)
Theorem X14_unmount_undoes_mount env uid w :
  (mountThenUnmount env (Some uid) w).1 = Ok () ∧
  (Unsubscribed ∈ emitted (mountThenUnmount env (Some uid)) w ↔
   fulfilled env (reads w) = true ∧ fulfilled env (S (reads w)) = true) ∧
  (Unsubscribed ∈ emitted (mountThenUnmount env (Some uid)) w ↔
   Called (OnSnapshot uid) ∈ emitted (mountThenUnmount env (Some uid)) w ∧
   Failed (OnSnapshot uid) ∉ emitted (mountThenUnmount env (Some uid)) w) ∧
  Called DisableNetwork ∈ emitted (mountThenUnmount env (Some uid)) w.
Proof.
  destruct w as [n net d tr]. run_handler.
  destruct (fulfilled env n); [destruct (fulfilled env (S n)) |];
    [destruct (fulfilled env (S (S n)))
    | destruct (fulfilled env (S (S n)))
    | destruct (fulfilled env (S n))];
    emitted_events; cbn [fst];
    rewrite ?not_elem_of_cons, !elem_of_cons, !elem_of_nil; intuition congruence.
Qed.

(** ** The subscription: whose jobs it yields *)

Lemma jobsData_complete d uid id data :
  d !! id = Some data → get "userId" data = Str uid →
  jobOfDoc (id, data) ∈ jobsData d uid.
Proof.
  intros Hin Hu. unfold jobsData, queryDocs.
  apply list_elem_of_In, in_map, filter_In. split.
  - by apply list_elem_of_In, elem_of_map_to_list.
  - by apply bool_decide_eq_true.
Qed.

Lemma filter_length_le' {A} (f : A → bool) l :
  (length (List.filter f l) ≤ length l)%nat.
Proof.
  induction l as [| x l IH]; simpl; [done |]. destruct (f x); simpl; lia.
Qed.

(** X15. The listener yields to a user a job for every stored document
    whose [userId] is the user's uid, yields no job to two different
    users, never more jobs than there are documents, and none from an
    empty collection. *)
Theorem X15_subscription_per_user (d : gmap string obj) uid :
  (∀ id data, d !! id = Some data → get "userId" data = Str uid →
              jobOfDoc (id, data) ∈ jobsData d uid) ∧
  (∀ j uid', j ∈ jobsData d uid → uid' ≠ uid → j ∉ jobsData d uid') ∧
  (length (jobsData d uid) ≤ size d)%nat ∧
  jobsData ∅ uid = [].
Proof.
  split; [intros; by apply jobsData_complete |]. split; [| split].
  - intros j uid' Hj Hne Hj'.
    destruct (jobsData_elem_of d uid j Hj) as (_ & _ & _ & _ & Hu & _).
    destruct (jobsData_elem_of d uid' j Hj') as (_ & _ & _ & _ & Hu' & _).
    congruence.
  - unfold jobsData, queryDocs. rewrite length_map, <- length_map_to_list.
    apply filter_length_le'.
  - unfold jobsData, queryDocs. by rewrite map_to_list_empty.
Qed.

(** ** The [id] of a job and the document it is stored in *)

Lemma jobOfDoc_id id data :
  get "id" (jobOfDoc (id, data))
  = match data !! "id" with Some v => v | None => Str id end.
Proof.
  unfold jobOfDoc, spread, get. cbn [fst snd]. rewrite lookup_union.
  rewrite lookup_singleton_eq. by destruct (data !! "id").
Qed.

Lemma Dashboard_handleSubmit_missing_document env user e job w :
  (∀ ref, docPath (get "id" job) = Some ref → db w !! ref = None) →
  db (Dashboard_handleSubmit env user (Some e) job w).2 = db w ∧
  existsb isToastError (emitted (Dashboard_handleSubmit env user (Some e) job) w)
  = true.
Proof.
  intros Hmiss. destruct w as [n net d tr]. cbn [db] in Hmiss.
  run_handler. destruct (docPath (get "id" job)) as [ref |];
    [| emitted_events; by split].
  rewrite (Hmiss ref eq_refl).
  destruct (fulfilled env (S n)); emitted_events; by split.
Qed.

(** The record of an edit carries the [id] of the job edited when that
    is a non-empty string. *)
Lemma submittedJob_edit_id env j fd w :
  truthy (get "id" j) = true →
  ∃ r w1, submittedJob env (Some j) fd w = (Ok r, w1) ∧ get "id" r = get "id" j.
Proof.
  intros Hid. destruct w as [n net d tr]. run_handler. rewrite Hid.
  destruct (truthy (get "appliedDate" j)); do 2 eexists;
    (split; [reflexivity |]); by get_simpl.
Qed.

(** An edit whose job names, in its [id], no stored document changes
    nothing and ends in the error toast. *)
Lemma submitForm_missing_document env user j fd w :
  truthy (get "id" j) = true →
  (∀ ref, docPath (get "id" j) = Some ref → db w !! ref = None) →
  db (submitForm env user (Some j) fd w).2 = db w ∧
  existsb isToastError (emitted (submitForm env user (Some j) fd) w) = true.
Proof.
  intros Hid Hmiss.
  destruct (submitForm_emitted env user (Some j) fd w) as (r & w1 & E1 & D1 & -> & ->).
  destruct (submittedJob_edit_id env j fd w Hid) as (r' & w1' & E1' & Eid).
  rewrite E1 in E1'. injection E1' as <- <-.
  destruct (Dashboard_handleSubmit_missing_document env user j r w1) as [D T].
  { intros ref. rewrite Eid, D1. apply Hmiss. }
  split; [by rewrite D, D1 |].
  rewrite existsb_app, T. done.
Qed.

Lemma submitForm_add_db env user fd w :
  fulfilled env (4 + reads w) = true →
  db w !! autoId env (4 + reads w) = None →
  db (submitForm env user None fd w).2
  = <[autoId env (4 + reads w) :=
        addPayload user
          (<["notes" := orElse (get "notes" fd) (Str "")]>
             (<["appliedDate" := Str (toISOString env (1 + reads w))]>
                (<["id" := Str (randomUUID env (reads w))]> fd)))
          (toISOString env (2 + reads w)) (toISOString env (3 + reads w))]> (db w).
Proof.
  destruct w as [n net d tr]. cbn [Nat.add reads db]. intros F Hfresh.
  run_handler. cbn [truthy]. by rewrite F, Hfresh.
Qed.

(** X16. A job's [id] is the [id] property of its document's data when
    there is one, and the document id only otherwise. So a job this
    application has added cannot be edited: the listener yields it with
    the UUID the form gave it as [id], while it is stored under the id the
    database generated; as long as that UUID names no stored document,
    every submission of an edit of it leaves the database unchanged and
    ends in the error toast. A UUID without a slash names the document of
    that id. *)
Theorem X16_added_job_cannot_be_edited env uid formData w :
  fulfilled env (4 + reads w) = true →
  db w !! autoId env (4 + reads w) = None →
  randomUUID env (reads w) ≠ "" →
  (∀ ref, docPath (Str (randomUUID env (reads w))) = Some ref →
          ref ≠ autoId env (4 + reads w) ∧ db w !! ref = None) →
  (∀ id data, get "id" (jobOfDoc (id, data))
              = match data !! "id" with Some v => v | None => Str id end) ∧
  (includes (randomUUID env (reads w)) "/" = false →
   docPath (Str (randomUUID env (reads w))) = Some (randomUUID env (reads w))) ∧
  ∃ j, j ∈ jobsData (db (submitForm env (Some uid) None formData w).2) uid ∧
       get "id" j = Str (randomUUID env (reads w)) ∧
       ∀ env' user' formData' w',
         db w' = db (submitForm env (Some uid) None formData w).2 →
         db (submitForm env' user' (Some j) formData' w').2 = db w' ∧
         existsb isToastError
           (emitted (submitForm env' user' (Some j) formData') w') = true.
Proof.
  intros F Hfresh Hne Hmiss. split; [apply jobOfDoc_id |].
  split; [by apply docPath_plain |].
  rewrite (submitForm_add_db env (Some uid) formData w F Hfresh).
  set (payload := addPayload (Some uid) _ _ _).
  assert (payload !! "id" = Some (Str (randomUUID env (reads w)))) as Pid
    by (subst payload; unfold addPayload; by get_simpl).
  assert (get "userId" payload = Str uid) as Pu
    by (subst payload; unfold addPayload; by get_simpl).
  exists (jobOfDoc (autoId env (4 + reads w), payload)).
  assert (get "id" (jobOfDoc (autoId env (4 + reads w), payload))
          = Str (randomUUID env (reads w))) as Jid
    by (by rewrite jobOfDoc_id, Pid).
  split; [| split; [done |]].
  - apply jobsData_complete; [by rewrite lookup_insert_eq | done].
  - intros env' user' fd' w' Dw'.
    apply submitForm_missing_document.
    + rewrite Jid. by destruct (randomUUID env (reads w)).
    + intros ref. rewrite Jid, Dw'. intros Href.
      destruct (Hmiss ref Href) as [Hdiff Hnone].
      by rewrite lookup_insert_ne.
Qed.

Lemma X16_witness :
  fulfilled sampleEnv (4 + reads freshWorld) = true ∧
  db freshWorld !! autoId sampleEnv (4 + reads freshWorld) = None ∧
  randomUUID sampleEnv (reads freshWorld) ≠ "" ∧
  (∀ ref, docPath (Str (randomUUID sampleEnv (reads freshWorld))) = Some ref →
          ref ≠ autoId sampleEnv (4 + reads freshWorld) ∧
          db freshWorld !! ref = None) ∧
  (∀ id data, get "id" (jobOfDoc (id, data))
              = match data !! "id" with Some v => v | None => Str id end) ∧
  (includes (randomUUID sampleEnv (reads freshWorld)) "/" = false →
   docPath (Str (randomUUID sampleEnv (reads freshWorld)))
   = Some (randomUUID sampleEnv (reads freshWorld))) ∧
  ∃ j, j ∈ jobsData (db (submitForm sampleEnv (Some "alice") None sampleForm
                           freshWorld).2) "alice" ∧
       get "id" j = Str (randomUUID sampleEnv (reads freshWorld)) ∧
       ∀ env' user' formData' w',
         db w' = db (submitForm sampleEnv (Some "alice") None sampleForm
                       freshWorld).2 →
         db (submitForm env' user' (Some j) formData' w').2 = db w' ∧
         existsb isToastError
           (emitted (submitForm env' user' (Some j) formData') w') = true.
Proof.
  assert (∀ ref, docPath (Str (randomUUID sampleEnv (reads freshWorld))) = Some ref →
                 ref ≠ autoId sampleEnv (4 + reads freshWorld) ∧
                 db freshWorld !! ref = None) as Hmiss.
  { intros ref [= <-]. split; [done | reflexivity]. }
  split; [reflexivity |]. split; [reflexivity |]. split; [done |].
  split; [exact Hmiss |].
  apply (X16_added_job_cannot_be_edited sampleEnv "alice" sampleForm freshWorld);
    done.
Defined.

(** A UUID with a slash at its end names the document of what precedes
    the slash: that document can be stored, and the edit then changes
    it. *)
Example slash_in_id_sample :
  docPath (Str "doc-17/") = Some "doc-17" ∧
  get "status" <$> db (Dashboard_handleSubmit sampleEnv (Some "alice") (Some aliceJob)
                         (<["status" := Str "REJECTED"]> (<["id" := Str "doc-17/"]> aliceJob))
                         aliceWorld).2 !! "doc-17"
  = Some (Str "REJECTED").
Proof. split; vm_compute; reflexivity. Qed.

(** ** The Dashboard: when the form is on screen *)

Lemma onUi_showForm st e :
  e ≠ ClickAdd → st_showForm st = false → st_showForm (onUi st e) = false.
Proof. by destruct e. Qed.

Lemma foldl_onUi_closed es st :
  st_showForm st = false → ClickAdd ∉ es →
  st_showForm (foldl onUi st es) = false.
Proof.
  revert st. induction es as [| e es IH]; intros st Hst Hes; [done |].
  apply not_elem_of_cons in Hes as [He Hes]. simpl.
  apply IH; [| done]. by apply onUi_showForm.
Qed.

(** X17. The edit button of a board records the job but does not show the
    form: while the form is closed, only the button Add Application opens
    it. Pressing that button after the edit button of a job opens the
    form on that job, under the heading of an edit; closing the form
    forgets the job. *)
Theorem X17_edit_click_does_not_open_form st es :
  (st_showForm st = false → ClickAdd ∉ es →
   renderedForm (foldl onUi st es) = None) ∧
  (∀ j, renderedForm (foldl onUi st (es ++ [ClickEdit j; ClickAdd]))
        = Some (Some j) ∧
        formTitle (Some j) = "Edit Job Application" ∧
        submitLabel (Some j) = "Update Application") ∧
  renderedForm (onUi st ClickAdd) = Some (st_editingJob st) ∧
  renderedForm (onUi st CloseForm) = None ∧
  st_editingJob (onUi st CloseForm) = None.
Proof.
  split; [| split; [| done]].
  - intros Hst Hes. unfold renderedForm.
    by rewrite (foldl_onUi_closed es st Hst Hes).
  - intros j. split; [| done]. by rewrite foldl_app.
Qed.

Example edit_click_sample :
  renderedForm (foldl onUi initialDashboard
                  [SnapshotArrives [aliceJob]; ClickEdit aliceJob; TypeSearch "acme"])
  = None.
Proof. reflexivity. Qed.
